(** * customer_data_ci: the [clean_dataframe] transformation

  A shallow embedding of the two copies of [clean_dataframe] of the
  repository,

  - [src/transform.py] (module [Transform] below), and
  - [tests/test_transform.py] (module [TestTransform] below),

  together with the part of Python's [str] and of pandas that they call,
  and the properties of the cleaned table. *)

From Stdlib Require Import String Ascii ZArith List Bool Lia.
From stdpp Require Import base option list strings.

Local Open Scope string_scope.
Local Open Scope list_scope.

(** ** Python [str]: [strip] and [lower]

  A Python string is a sequence of code points; this development takes the
  code points below 256 (ASCII and Latin-1), one per [ascii]. *)

Module Str.

(** [c.isspace()] for a code point below 256: TAB..CR, FS..US, SPACE,
    NEL (0x85) and NBSP (0xA0). These are the characters [strip()]
    removes when it is called without argument. *)
Definition isspace (c : ascii) : bool :=
  let n := N_of_ascii c in
  (((9 <=? n) && (n <=? 13)) || ((28 <=? n) && (n <=? 32))
   || (n =? 133) || (n =? 160))%N.

(** [c.lower()] for a code point below 256: [A-Z] and the Latin-1
    capitals 0xC0..0xDE (but not the multiplication sign 0xD7) move up
    by 32. *)
Definition lower_char (c : ascii) : ascii :=
  let n := N_of_ascii c in
  if (((65 <=? n) && (n <=? 90))
      || ((192 <=? n) && (n <=? 222) && negb (n =? 215)))%N
  then ascii_of_N (n + 32)
  else c.

Fixpoint lower (s : string) : string :=
  match s with
  | EmptyString => EmptyString
  | String c s' => String (lower_char c) (lower s')
  end.

Fixpoint lstrip (s : string) : string :=
  match s with
  | EmptyString => EmptyString
  | String c s' => if isspace c then lstrip s' else s
  end.

Fixpoint rstrip (s : string) : string :=
  match s with
  | EmptyString => EmptyString
  | String c s' =>
      match rstrip s' with
      | EmptyString => if isspace c then EmptyString else String c EmptyString
      | t => String c t
      end
  end.

Definition strip (s : string) : string := rstrip (lstrip s).

(** Every character of [s] is white space ([s] may be empty). *)
Fixpoint all_space (s : string) : bool :=
  match s with
  | EmptyString => true
  | String c s' => isspace c && all_space s'
  end.

(** The first character of [s], if any, is not white space. *)
Definition no_lead (s : string) : Prop :=
  match s with
  | EmptyString => True
  | String c _ => isspace c = false
  end.

End Str.

(** ** Tables

    A cell of the [name] or [email] column is a text or a missing value
    ([None] and [NaN] of pandas, both of which [notna()] rejects). A row
    carries its index label, its two interpreted fields and the cells of the
    remaining columns, which the transformation never reads. *)

Definition cell : Type := option string.

Record Row : Type := mkRow {
  label : Z;
  name : cell;
  email : cell;
  extras : list cell
}.

(** The dtype of a column. A column that holds text has dtype [object]; a
    column pandas built from missing values only (from [np.nan], from
    [[None, np.nan]], from an empty list, from the blank cells of a
    spreadsheet) has dtype [float64]. The dtype is part of the table: it
    survives row selection, and an [object] column may well hold missing
    values only. *)
Inductive dtype : Type := object | float64.

Record Series : Type := mkSeries {
  sdtype : dtype;
  values : list cell
}.

Record DataFrame : Type := mkDataFrame {
  name_dtype : dtype;
  email_dtype : dtype;
  rows : list Row
}.

(** A [float64] column holds no text. *)
Definition well_typed (df : DataFrame) : Prop :=
  (name_dtype df = float64 -> Forall (fun r => name r = None) (rows df)) /\
  (email_dtype df = float64 -> Forall (fun r => email r = None) (rows df)).

(** The two columns the code names, ['name'] and ['email']. *)
Inductive column : Type := col_name | col_email.

Definition get (c : column) (r : Row) : cell :=
  match c with
  | col_name => name r
  | col_email => email r
  end.

Definition set (c : column) (r : Row) (v : cell) : Row :=
  match c with
  | col_name => mkRow (label r) v (email r) (extras r)
  | col_email => mkRow (label r) (name r) v (extras r)
  end.

(** Exceptions and results. *)
Inductive exn : Type := AttributeError.

Inductive result (A : Type) : Type :=
  | Ok (a : A)
  | Raise (e : exn).
Arguments Ok {A} a.
Arguments Raise {A} e.

#[global] Instance result_ret : MRet result := fun A a => Ok a.
#[global] Instance result_bind : MBind result := fun A B f m =>
  match m with
  | Ok a => f a
  | Raise e => Raise e
  end.

#[global] Instance dtype_eq_dec : EqDecision dtype.
Proof. solve_decision. Defined.
#[global] Instance Row_eq_dec : EqDecision Row.
Proof. solve_decision. Defined.

(** ** The pandas operations the code calls, on table values *)

Module pd.

(** [df.copy()]: a table equal to [df] (and a new object, see [pdobj]). *)
Definition copy (df : DataFrame) : DataFrame := df.

(** [len(df)]. *)
Definition len (df : DataFrame) : nat := List.length (rows df).

(** [df[c]]: the column as a Series. *)
Definition getitem (df : DataFrame) (c : column) : Series :=
  match c with
  | col_name => mkSeries (name_dtype df) (map name (rows df))
  | col_email => mkSeries (email_dtype df) (map email (rows df))
  end.

(** [s.str.f()]. The columns here hold texts and missing values only. On
    these the [.str] accessor raises [AttributeError] ("Can only use .str
    accessor with string values") when the column is [float64], that is,
    when pandas stored a column of missing values as numbers; otherwise [f]
    is applied to every text, a missing value stays missing, and the result
    has dtype [object]. Columns with cells of other kinds (numbers,
    booleans) are not covered. *)
Definition str_map (f : string -> string) (s : Series) : result Series :=
  match sdtype s with
  | object => Ok (mkSeries object (map (option_map f) (values s)))
  | float64 => Raise AttributeError
  end.

Definition str_strip : Series -> result Series := str_map Str.strip.
Definition str_lower : Series -> result Series := str_map Str.lower.

(** Row by row, put the values of a Series into column [c]. The Series the
    code assigns was computed from the same table, so both have the same
    length; a row the Series has no value for would get a missing value. *)
Fixpoint assign (c : column) (rs : list Row) (vs : list cell) : list Row :=
  match rs with
  | [] => []
  | r :: rs' =>
      match vs with
      | [] => set c r None :: assign c rs' []
      | v :: vs' => set c r v :: assign c rs' vs'
      end
  end.

(** [df[c] = s]: the column is replaced, dtype included. *)
Definition setitem (df : DataFrame) (c : column) (s : Series) : DataFrame :=
  match c with
  | col_name => mkDataFrame (sdtype s) (email_dtype df) (assign c (rows df) (values s))
  | col_email => mkDataFrame (name_dtype df) (sdtype s) (assign c (rows df) (values s))
  end.

(** [s.notna()]. *)
Definition notna (s : Series) : list bool :=
  map (fun v : cell => bool_decide (v ≠ None)) (values s).

(** [s != x] for a text [x]: a missing value differs from every text. *)
Definition ne (s : Series) (x : string) : list bool :=
  map (fun v : cell => bool_decide (v ≠ Some x)) (values s).

(** [mask.any()]. *)
Definition any (mask : list bool) : bool := existsb id mask.

(** Boolean indexing: the elements at the positions where the mask holds.
    The masks of the code are computed from the table they select from and
    have its length. *)
Fixpoint select {A : Type} (l : list A) (mask : list bool) : list A :=
  match l, mask with
  | x :: l', b :: mask' => if b then x :: select l' mask' else select l' mask'
  | _, _ => []
  end.

(** [df[mask]]: the selected rows keep their labels and the columns their
    dtypes. *)
Definition getitem_mask (df : DataFrame) (mask : list bool) : DataFrame :=
  mkDataFrame (name_dtype df) (email_dtype df) (select (rows df) mask).

(** [s.duplicated(keep='first')]: a value is a duplicate when it occurred
    at an earlier position. *)
Fixpoint duplicated_from (seen : list cell) (vs : list cell) : list bool :=
  match vs with
  | [] => []
  | v :: vs' =>
      if bool_decide (v ∈ seen) then true :: duplicated_from seen vs'
      else false :: duplicated_from (v :: seen) vs'
  end.

Definition duplicated (s : Series) : list bool := duplicated_from [] (values s).

(** [df.drop_duplicates(subset=[c], keep='first')], which pandas computes
    as [df[~df.duplicated(subset, keep)]]. *)
Definition drop_duplicates (df : DataFrame) (c : column) : DataFrame :=
  getitem_mask df (map negb (duplicated (getitem df c))).

Fixpoint renumber (i : Z) (rs : list Row) : list Row :=
  match rs with
  | [] => []
  | r :: rs' => mkRow i (name r) (email r) (extras r) :: renumber (i + 1) rs'
  end.

(** [df.reset_index(drop=True)]: the labels become 0, 1, 2, ... *)
Definition reset_index (df : DataFrame) : DataFrame :=
  mkDataFrame (name_dtype df) (email_dtype df) (renumber 0 (rows df)).

End pd.


(** ** Tables as objects

    Python passes tables by reference. A store holds the table objects that
    are alive; a reference is a position in it. An operation takes the store
    and gives back the store after it and a result or an exception. It gives
    nothing ([None]) for a reference outside the store, which a Python name
    never is. *)

Definition ref : Type := nat.
Definition store : Type := list DataFrame.
Definition M (A : Type) : Type := store -> option (store * result A).

#[global] Instance M_ret : MRet M := fun A a h => Some (h, Ok a).
#[global] Instance M_bind : MBind M := fun A B f m h =>
  match m h with
  | Some (h', Ok a) => f a h'
  | Some (h', Raise e) => Some (h', Raise e)
  | None => None
  end.

Module pdobj.

(** A result computed on values, with no effect on the store. *)
Definition lift {A : Type} (r : result A) : M A := fun h => Some (h, r).

Definition read (l : ref) : M DataFrame := fun h =>
  match h !! l with
  | Some d => Some (h, Ok d)
  | None => None
  end.

(** A new object, at a reference that was not in use. *)
Definition alloc (d : DataFrame) : M ref := fun h =>
  Some (h ++ [d], Ok (List.length h)).

(** Update of an object in place. *)
Definition write (l : ref) (d : DataFrame) : M unit := fun h =>
  match h !! l with
  | Some _ => Some (<[l := d]> h, Ok tt)
  | None => None
  end.

(** [df.copy()] is a deep copy: a new object that owns its data. *)
Definition copy (df : ref) : M ref :=
  d ← read df; alloc (pd.copy d).

Definition len (df : ref) : M nat :=
  d ← read df; mret (pd.len d).

Definition getitem (df : ref) (c : column) : M Series :=
  d ← read df; mret (pd.getitem d c).

(** [df[c] = s] changes the object [df] refers to. *)
Definition setitem (df : ref) (c : column) (s : Series) : M unit :=
  d ← read df; write df (pd.setitem d c s).

(** [df[mask]], [df.drop_duplicates(...)] and [df.reset_index(drop=True)]
    leave [df] as it is and return a new object. *)
Definition getitem_mask (df : ref) (mask : list bool) : M ref :=
  d ← read df; alloc (pd.getitem_mask d mask).

Definition drop_duplicates (df : ref) (c : column) : M ref :=
  d ← read df; alloc (pd.drop_duplicates d c).

Definition reset_index (df : ref) : M ref :=
  d ← read df; alloc (pd.reset_index d).

End pdobj.

(** ** [src/transform.py] *)

Module Transform.

Definition clean_dataframe (df : DataFrame) : result DataFrame :=
  let cleaned_df := pd.copy df in
  s ← pd.str_strip (pd.getitem cleaned_df col_name);
  s ← pd.str_lower s;
  let cleaned_df := pd.setitem cleaned_df col_name s in
  s ← pd.str_strip (pd.getitem cleaned_df col_email);
  s ← pd.str_lower s;
  let cleaned_df := pd.setitem cleaned_df col_email s in
  let cleaned_df := pd.getitem_mask cleaned_df (pd.notna (pd.getitem cleaned_df col_email)) in
  let cleaned_df := pd.getitem_mask cleaned_df (pd.ne (pd.getitem cleaned_df col_email) "") in
  let cleaned_df := pd.drop_duplicates cleaned_df col_email in
  let cleaned_df := pd.reset_index cleaned_df in
  Ok cleaned_df.

(** The same function on table objects: [df] and the local name
    [cleaned_df] are references, and the assignments to [cleaned_df['name']]
    and [cleaned_df['email']] update an object in place. *)
Definition clean_dataframe_obj (df : ref) : M ref :=
  cleaned_df ← pdobj.copy df;
  s ← pdobj.getitem cleaned_df col_name;
  s ← pdobj.lift (pd.str_strip s);
  s ← pdobj.lift (pd.str_lower s);
  _ ← pdobj.setitem cleaned_df col_name s;
  s ← pdobj.getitem cleaned_df col_email;
  s ← pdobj.lift (pd.str_strip s);
  s ← pdobj.lift (pd.str_lower s);
  _ ← pdobj.setitem cleaned_df col_email s;
  s ← pdobj.getitem cleaned_df col_email;
  cleaned_df ← pdobj.getitem_mask cleaned_df (pd.notna s);
  s ← pdobj.getitem cleaned_df col_email;
  cleaned_df ← pdobj.getitem_mask cleaned_df (pd.ne s "");
  cleaned_df ← pdobj.drop_duplicates cleaned_df col_email;
  cleaned_df ← pdobj.reset_index cleaned_df;
  mret cleaned_df.

End Transform.

(** ** [tests/test_transform.py] *)

Module TestTransform.

Definition clean_dataframe (df : DataFrame) : result DataFrame :=
  let cleaned_df := pd.copy df in
  if decide (pd.len cleaned_df = 0%nat) then Ok cleaned_df else
  cleaned_df ←
    (if pd.any (pd.notna (pd.getitem cleaned_df col_name)) then
       s ← pd.str_strip (pd.getitem cleaned_df col_name);
       s ← pd.str_lower s;
       Ok (pd.setitem cleaned_df col_name s)
     else Ok cleaned_df);
  cleaned_df ←
    (if pd.any (pd.notna (pd.getitem cleaned_df col_email)) then
       s ← pd.str_strip (pd.getitem cleaned_df col_email);
       s ← pd.str_lower s;
       Ok (pd.setitem cleaned_df col_email s)
     else Ok cleaned_df);
  let cleaned_df := pd.getitem_mask cleaned_df (pd.notna (pd.getitem cleaned_df col_email)) in
  let cleaned_df := pd.getitem_mask cleaned_df (pd.ne (pd.getitem cleaned_df col_email) "") in
  let cleaned_df := pd.drop_duplicates cleaned_df col_email in
  let cleaned_df := pd.reset_index cleaned_df in
  Ok cleaned_df.

Definition clean_dataframe_obj (df : ref) : M ref :=
  cleaned_df ← pdobj.copy df;
  n ← pdobj.len cleaned_df;
  if decide (n = 0%nat) then mret cleaned_df else
  s ← pdobj.getitem cleaned_df col_name;
  _ ← (if pd.any (pd.notna s) then
         s ← pdobj.getitem cleaned_df col_name;
         s ← pdobj.lift (pd.str_strip s);
         s ← pdobj.lift (pd.str_lower s);
         pdobj.setitem cleaned_df col_name s
       else mret tt);
  s ← pdobj.getitem cleaned_df col_email;
  _ ← (if pd.any (pd.notna s) then
         s ← pdobj.getitem cleaned_df col_email;
         s ← pdobj.lift (pd.str_strip s);
         s ← pdobj.lift (pd.str_lower s);
         pdobj.setitem cleaned_df col_email s
       else mret tt);
  s ← pdobj.getitem cleaned_df col_email;
  cleaned_df ← pdobj.getitem_mask cleaned_df (pd.notna s);
  s ← pdobj.getitem cleaned_df col_email;
  cleaned_df ← pdobj.getitem_mask cleaned_df (pd.ne s "");
  cleaned_df ← pdobj.drop_duplicates cleaned_df col_email;
  cleaned_df ← pdobj.reset_index cleaned_df;
  mret cleaned_df.

End TestTransform.


(** ** Vocabulary of the properties *)

(** The canonical form of a text, as the code computes it:
    [x.strip().lower()]. *)
Definition canonical (s : string) : string := Str.lower (Str.strip s).

(** [o] is the cleaned form of the input record [r]: both texts canonical,
    a missing value still missing, the other columns as they were. The index
    label is not compared. *)
Definition cleaned_from (r o : Row) : Prop :=
  name o = option_map canonical (name r) /\
  email o = option_map canonical (email r) /\
  extras o = extras r.

Definition norm_name (r : Row) : Row :=
  mkRow (label r) (option_map canonical (name r)) (email r) (extras r).

Definition norm_email (r : Row) : Row :=
  mkRow (label r) (name r) (option_map canonical (email r)) (extras r).

Definition normalise (r : Row) : Row := norm_email (norm_name r).

(** The input records that are kept, read off the input: the first record
    of every non-empty canonical email, [seen] being the canonical emails
    met so far. *)
Fixpoint survivors (seen : list string) (rs : list Row) : list Row :=
  match rs with
  | [] => []
  | r :: rs' =>
      match email r with
      | None => survivors seen rs'
      | Some e =>
          if bool_decide (canonical e = "") then survivors seen rs'
          else if bool_decide (canonical e ∈ seen) then survivors seen rs'
          else r :: survivors (canonical e :: seen) rs'
      end
  end.

Definition cleaned (rs : list Row) : list Row :=
  pd.renumber 0 (map normalise (survivors [] rs)).

(** There is a non-missing value in the column. *)
Definition some_name (df : DataFrame) : bool :=
  pd.any (pd.notna (pd.getitem df col_name)).
Definition some_email (df : DataFrame) : bool :=
  pd.any (pd.notna (pd.getitem df col_email)).

(** Tables of the examples. *)
Definition rec (n e : cell) : Row := mkRow 0 n e [].
Definition text_table (rs : list Row) : DataFrame := mkDataFrame object object rs.

(** What [pd.DataFrame({'name': [], 'email': []})] builds, the input of
    [test_empty_dataframe]: no row, and two [float64] columns. *)
Definition empty_table : DataFrame := mkDataFrame float64 float64 [].

(** A table read from a sheet whose names are all blank: the [name] column
    is [float64] and holds missing values only. *)
Definition blank_names_table : DataFrame :=
  mkDataFrame float64 object
    [mkRow 0 None (Some "A@x.com") []; mkRow 1 None (Some "b@x.com") []].

(** The later store holds the earlier one, unchanged, and new objects. *)
Definition extends (h h' : store) : Prop := exists ext, h' = h ++ ext.

(** What a run of [clean] on the object at [df] does, [clean_value] being
    the function on table values: the store is extended, and the result is
    a new object holding the table [clean_value] returns, or the exception
    it raises. *)
Definition runs_as (clean : ref -> M ref) (clean_value : DataFrame -> result DataFrame)
    (h : store) (df : ref) (d : DataFrame) : Prop :=
  exists h' res,
    clean df h = Some (h', res) /\
    extends h h' /\
    match res with
    | Ok out => List.length h <= out /\
                exists o, h' !! out = Some o /\ clean_value d = Ok o
    | Raise e => clean_value d = Raise e
    end.

(** A run of [clean] on the object at [df] leaves every object of the store
    as it was, the input among them, and what it returns is an object that
    was not in the store before. *)
Definition leaves_store (clean : ref -> M ref) (h : store) (df : ref) : Prop :=
  exists h' res,
    clean df h = Some (h', res) /\
    (forall l x, h !! l = Some x -> h' !! l = Some x) /\
    match res with
    | Ok out => h !! out = None /\ out ≠ df /\ is_Some (h' !! out)
    | Raise _ => True
    end.

(** ** The script of [src/transform.py]

    Below the function, [src/transform.py] reads a sheet, prints it with a
    few counts, cleans it, prints the result with more counts and writes it
    to a second sheet. The script is taken from the table [read_excel]
    returned. What it does to the outside is a sequence of events: a printed
    line is kept as its pieces, the fixed texts and the numbers the f-string
    shows; a printed table and the call of [to_excel] are kept as the call. *)

Module pdcount.

(** [s.isna()]. *)
Definition isna (s : Series) : list bool :=
  map (fun v : cell => bool_decide (v = None)) (values s).

(** [s == x] for a text [x]. *)
Definition eq (s : Series) (x : string) : list bool :=
  map (fun v : cell => bool_decide (v = Some x)) (values s).

(** [mask.sum()]: the number of positions where the mask holds. *)
Fixpoint sum (mask : list bool) : Z :=
  match mask with
  | [] => 0
  | b :: mask' => (if b then 1 else 0) + sum mask'
  end.

End pdcount.

Module Script.

Inductive piece : Type :=
  | lit (s : string)
  | num (n : Z).

Inductive event : Type :=
  | print (line : list piece)
  | print_frame (df : DataFrame)
  | to_excel (df : DataFrame) (path : string) (index : bool) (sheet_name : string).

(** Events so far, and a value or the exception that ended the script. *)
Definition IO (A : Type) : Type := (list event * result A)%type.

#[global] Instance IO_ret : MRet IO := fun A a => ([], Ok a).
#[global] Instance IO_bind : MBind IO := fun A B f m =>
  match m with
  | (es, Ok a) => let (es', r) := f a in (es ++ es', r)
  | (es, Raise e) => (es, Raise e)
  end.

Definition emit (e : event) : IO unit := ([e], Ok tt).
Definition call {A : Type} (r : result A) : IO A := ([], r).

Definition nl : string := String (ascii_of_nat 10) "".
Definition rule : string := String.concat "" (repeat "=" 60).

Definition input_file : string :=
  "C:\Users\Navneet\Desktop\Project\customer-data-ci\raw_data\messy_sample_data.xlsx".
Definition output_file : string :=
  "C:\Users\Navneet\Desktop\Project\customer-data-ci\raw_data\cleaned_sample_data.xlsx".

(** [messy_df['email'].isna().sum()]. *)
Definition null_emails (messy_df : DataFrame) : Z :=
  pdcount.sum (pdcount.isna (pd.getitem messy_df col_email)).

(** [(messy_df['email'] == '').sum()]. *)
Definition empty_emails (messy_df : DataFrame) : Z :=
  pdcount.sum (pdcount.eq (pd.getitem messy_df col_email) "").

(** [len(messy_df) - len(cleaned_df)]. *)
Definition rows_removed (messy_df cleaned_df : DataFrame) : Z :=
  Z.of_nat (pd.len messy_df) - Z.of_nat (pd.len cleaned_df).

(** [duplicates_count], from
    [messy_df['email'].str.strip().str.lower().duplicated().sum()]. *)
Definition duplicates_count (messy_df : DataFrame) : result Z :=
  s ← pd.str_strip (pd.getitem messy_df col_email);
  original_emails_cleaned ← pd.str_lower s;
  Ok (pdcount.sum (pd.duplicated original_emails_cleaned)).

Definition script (messy_df : DataFrame) : IO unit :=
  _ ← emit (print [lit "Reading messy data from:"]);
  _ ← emit (print [lit "  "; lit input_file]);
  _ ← emit (print []);
  _ ← emit (print [lit rule]);
  _ ← emit (print [lit "ORIGINAL MESSY DATA:"]);
  _ ← emit (print [lit rule]);
  _ ← emit (print_frame messy_df);
  _ ← emit (print [lit nl; lit "Total rows: "; num (Z.of_nat (pd.len messy_df))]);
  _ ← emit (print [lit "Null emails: "; num (null_emails messy_df)]);
  _ ← emit (print [lit nl; lit rule]);
  _ ← emit (print [lit "CLEANING DATA..."]);
  _ ← emit (print [lit rule]);
  cleaned_df ← call (Transform.clean_dataframe messy_df);
  _ ← emit (print [lit nl; lit rule]);
  _ ← emit (print [lit "CLEANED DATA:"]);
  _ ← emit (print [lit rule]);
  _ ← emit (print_frame cleaned_df);
  _ ← emit (print [lit nl; lit "Total rows: "; num (Z.of_nat (pd.len cleaned_df))]);
  _ ← emit (print [lit nl; lit "Rows removed: "; num (rows_removed messy_df cleaned_df)]);
  _ ← emit (print [lit nl; lit rule]);
  _ ← emit (print [lit "SUMMARY OF CHANGES:"]);
  _ ← emit (print [lit rule]);
  _ ← emit (print [lit "• Removed "; num (null_emails messy_df);
                   lit " rows with null emails"]);
  _ ← emit (print [lit "• Removed "; num (empty_emails messy_df);
                   lit " rows with empty emails"]);
  duplicates_count ← call (duplicates_count messy_df);
  _ ← emit (print [lit "• Removed "; num duplicates_count; lit " duplicate emails"]);
  _ ← emit (print [lit "• All names and emails trimmed and lowercased"]);
  _ ← emit (to_excel cleaned_df output_file false "Cleaned Data");
  _ ← emit (print [lit nl; lit "✓ Cleaned data saved to:"]);
  emit (print [lit "  "; lit output_file]).

(** The calls of [to_excel] among the events. *)
Definition written (es : list event) : list event :=
  List.filter (fun e => match e with to_excel _ _ _ _ => true | _ => false end) es.

End Script.

(** ** More vocabulary *)

(** The key a record is kept by: its canonical email, when it has an email
    and the canonical form is not empty. *)
Definition key (r : Row) : option string :=
  match email r with
  | None => None
  | Some e => if bool_decide (canonical e = "") then None else Some (canonical e)
  end.

(** Two records with the same canonical name and email and the same other
    cells; the labels, the case and the outer white space may differ. *)
Definition same_canonical (r r' : Row) : Prop :=
  option_map canonical (name r) = option_map canonical (name r') /\
  option_map canonical (email r) = option_map canonical (email r') /\
  extras r = extras r'.

(** * Properties *)

(** ** Python [str] *)

Module StrFacts.
Import Str.

Lemma isspace_lower_char c : isspace (lower_char c) = isspace c.
Proof. destruct c as [[] [] [] [] [] [] [] []]; reflexivity. Qed.

Lemma lower_char_idem c : lower_char (lower_char c) = lower_char c.
Proof. destruct c as [[] [] [] [] [] [] [] []]; reflexivity. Qed.

Lemma lower_idem s : lower (lower s) = lower s.
Proof. induction s as [|c s IH]; simpl; [done|]. by rewrite lower_char_idem, IH. Qed.

Lemma lower_empty s : lower s = EmptyString <-> s = EmptyString.
Proof. destruct s; simpl; split; congruence. Qed.

Lemma lower_lstrip s : lower (lstrip s) = lstrip (lower s).
Proof.
  induction s as [|c s IH]; simpl; [done|].
  rewrite isspace_lower_char. by destruct (isspace c).
Qed.

Lemma lower_rstrip s : lower (rstrip s) = rstrip (lower s).
Proof.
  induction s as [|c s IH]; simpl; [done|].
  rewrite <- IH, isspace_lower_char.
  destruct (rstrip s) as [|d t]; simpl; [|done].
  by destruct (isspace c).
Qed.

(** [strip] and [lower] commute: the code's [x.strip().lower()] is the
    [trim(lowercase(x))] of the specification. *)
Lemma lower_strip s : lower (strip s) = strip (lower s).
Proof. unfold strip. by rewrite lower_rstrip, lower_lstrip. Qed.

Lemma no_lead_lstrip s : no_lead (lstrip s).
Proof.
  induction s as [|c s IH]; simpl; [done|].
  destruct (isspace c) eqn:E; [done|]. simpl. by rewrite E.
Qed.

Lemma lstrip_no_lead s : no_lead s -> lstrip s = s.
Proof. destruct s as [|c s]; simpl; [done|]. by intros ->. Qed.

Lemma no_lead_rstrip s : no_lead s -> no_lead (rstrip s).
Proof.
  destruct s as [|c s]; simpl; [done|]. intros E.
  destruct (rstrip s); simpl; by rewrite ?E.
Qed.

Lemma rstrip_idem s : rstrip (rstrip s) = rstrip s.
Proof.
  induction s as [|c s IH]; simpl; [done|].
  destruct (rstrip s) as [|d t] eqn:E.
  - destruct (isspace c) eqn:Ec; simpl; [done|]. by rewrite Ec.
  - change (rstrip (String c (String d t)))
      with (match rstrip (String d t) with
            | EmptyString => if isspace c then EmptyString else String c EmptyString
            | u => String c u
            end).
    by rewrite IH.
Qed.

Lemma strip_idem s : strip (strip s) = strip s.
Proof.
  unfold strip.
  rewrite (lstrip_no_lead (rstrip (lstrip s))).
  - apply rstrip_idem.
  - apply no_lead_rstrip, no_lead_lstrip.
Qed.

Lemma lstrip_all_space s : all_space s = true -> lstrip s = EmptyString.
Proof.
  induction s as [|c s IH]; simpl; [done|].
  intros [-> ?]%andb_true_iff. auto.
Qed.

Lemma strip_all_space s : all_space s = true -> strip s = EmptyString.
Proof. intros H. unfold strip. by rewrite lstrip_all_space. Qed.

Lemma rstrip_empty s : rstrip s = EmptyString -> all_space s = true.
Proof.
  induction s as [|c s IH]; simpl; [done|].
  destruct (rstrip s); [|done].
  destruct (isspace c); [|done]. intros _. by apply IH.
Qed.

Lemma all_space_lstrip s : all_space (lstrip s) = all_space s.
Proof.
  induction s as [|c s IH]; simpl; [done|].
  destruct (isspace c) eqn:E; simpl; [done|]. by rewrite E.
Qed.

Lemma strip_empty s : strip s = EmptyString <-> all_space s = true.
Proof.
  split; [|apply strip_all_space].
  intros H%rstrip_empty. by rewrite all_space_lstrip in H.
Qed.

End StrFacts.

Lemma canonical_idem s : canonical (canonical s) = canonical s.
Proof.
  unfold canonical.
  rewrite <- (StrFacts.lower_strip (Str.strip s)).
  by rewrite StrFacts.lower_idem, StrFacts.strip_idem.
Qed.

(** The order of the two steps does not matter. *)
Lemma canonical_trim_lower s : canonical s = Str.strip (Str.lower s).
Proof. apply StrFacts.lower_strip. Qed.

Lemma canonical_empty s : canonical s = "" <-> Str.all_space s = true.
Proof.
  unfold canonical. rewrite StrFacts.lower_empty. apply StrFacts.strip_empty.
Qed.

(** ** The pandas operations *)

Module pdFacts.

Lemma assign_map c (g : Row -> cell) rs :
  pd.assign c rs (map g rs) = map (fun r => set c r (g r)) rs.
Proof. induction rs as [|r rs IH]; simpl; [done|]. by rewrite IH. Qed.

Lemma select_map {A} (p : A -> bool) (l : list A) :
  pd.select l (map p l) = List.filter p l.
Proof.
  induction l as [|x l IH]; simpl; [done|]. rewrite IH. by destruct (p x).
Qed.

Lemma str_canonical s :
  sdtype s = object ->
  pd.str_strip s ≫= pd.str_lower
  = Ok (mkSeries object (map (option_map canonical) (values s))).
Proof.
  intros E. unfold pd.str_strip, pd.str_lower, pd.str_map. rewrite E. simpl.
  do 2 f_equal. rewrite map_map. apply map_ext. by intros [x|].
Qed.

Lemma str_raises s : sdtype s = float64 -> pd.str_strip s ≫= pd.str_lower = Raise AttributeError.
Proof. intros E. unfold pd.str_strip, pd.str_map. by rewrite E. Qed.

Lemma any_notna_false (vs : list cell) :
  existsb id (map (fun v : cell => bool_decide (v ≠ None)) vs) = false ->
  Forall (fun v => v = None) vs.
Proof.
  induction vs as [|v vs IH]; simpl; [constructor|].
  intros [Hv Hvs]%orb_false_iff. constructor; [|by apply IH].
  destruct v; [|done]. unfold id in Hv.
  apply bool_decide_eq_false in Hv. by destruct Hv.
Qed.

Lemma renumber_fields i rs :
  Forall2 (fun r o => name o = name r /\ email o = email r /\ extras o = extras r)
    rs (pd.renumber i rs).
Proof.
  revert i. induction rs as [|r rs IH]; intros i; simpl; constructor; auto.
Qed.

Lemma renumber_labels i rs :
  map label (pd.renumber i rs)
  = map (fun k => (i + Z.of_nat k)%Z) (seq 0 (List.length rs)).
Proof.
  revert i. induction rs as [|r rs IH]; intros i; simpl; [done|].
  f_equal; [f_equal; lia|].
  rewrite IH, <- seq_shift, map_map. apply map_ext. intros k. lia.
Qed.

Lemma renumber_length i rs : List.length (pd.renumber i rs) = List.length rs.
Proof. revert i. induction rs as [|r rs IH]; intros i; simpl; [done|]. by rewrite IH. Qed.

Lemma renumber_email i rs : map email (pd.renumber i rs) = map email rs.
Proof. revert i. induction rs as [|r rs IH]; intros i; simpl; [done|]. by rewrite IH. Qed.

Lemma renumber_renumber i j rs : pd.renumber i (pd.renumber j rs) = pd.renumber i rs.
Proof.
  revert i j. induction rs as [|r rs IH]; intros i j; simpl; [done|]. by rewrite IH.
Qed.

Lemma renumber_map_normalise i j rs :
  pd.renumber i (map normalise (pd.renumber j rs)) = pd.renumber i (map normalise rs).
Proof.
  revert i j. induction rs as [|r rs IH]; intros i j; simpl; [done|]. by rewrite IH.
Qed.

End pdFacts.

(** ** The rows of the cleaned table *)

Module Rows.

Lemma str_chain {B} (s : Series) (k : Series -> result B) :
  (x ← pd.str_strip s; y ← pd.str_lower x; k y)
  = match sdtype s with
    | object => k (mkSeries object (map (option_map canonical) (values s)))
    | float64 => Raise AttributeError
    end.
Proof.
  unfold pd.str_strip, pd.str_lower, pd.str_map.
  destruct (sdtype s); simpl; [|done].
  do 2 f_equal. rewrite map_map. apply map_ext. by intros [x|].
Qed.

Lemma setitem_name df :
  pd.setitem df col_name
    (mkSeries object (map (option_map canonical) (values (pd.getitem df col_name))))
  = mkDataFrame object (email_dtype df) (map norm_name (rows df)).
Proof.
  unfold pd.setitem, pd.getitem; simpl. f_equal.
  rewrite map_map. apply (pdFacts.assign_map col_name).
Qed.

Lemma setitem_email df :
  pd.setitem df col_email
    (mkSeries object (map (option_map canonical) (values (pd.getitem df col_email))))
  = mkDataFrame (name_dtype df) object (map norm_email (rows df)).
Proof.
  unfold pd.setitem, pd.getitem; simpl. f_equal.
  rewrite map_map. apply (pdFacts.assign_map col_email).
Qed.

Lemma getitem_notna df :
  pd.getitem_mask df (pd.notna (pd.getitem df col_email))
  = mkDataFrame (name_dtype df) (email_dtype df)
      (List.filter (fun r => bool_decide (email r ≠ None)) (rows df)).
Proof.
  unfold pd.getitem_mask, pd.notna, pd.getitem; simpl. f_equal.
  rewrite map_map. apply pdFacts.select_map.
Qed.

Lemma getitem_ne df x :
  pd.getitem_mask df (pd.ne (pd.getitem df col_email) x)
  = mkDataFrame (name_dtype df) (email_dtype df)
      (List.filter (fun r => bool_decide (email r ≠ Some x)) (rows df)).
Proof.
  unfold pd.getitem_mask, pd.ne, pd.getitem; simpl. f_equal.
  rewrite map_map. apply pdFacts.select_map.
Qed.

(** Filtering and dropping duplicates on the canonical rows keeps the
    canonical forms of the survivors. *)
Lemma kept_rows seen rs :
  let rs' := List.filter (fun r => bool_decide (email r ≠ Some ""))
               (List.filter (fun r => bool_decide (email r ≠ None)) (map normalise rs)) in
  pd.select rs' (map negb (pd.duplicated_from (map Some seen) (map email rs')))
  = map normalise (survivors seen rs).
Proof.
  simpl. revert seen. induction rs as [|r rs IH]; intros seen; [done|].
  cbn [map survivors List.filter].
  destruct r as [i n [e|] x]; cbn [email normalise norm_email norm_name option_map];
    [|rewrite bool_decide_false by (intros H; by apply H); apply IH].
  rewrite bool_decide_true by done. cbn [List.filter email].
  destruct (decide (canonical e = "")) as [E|E].
  { rewrite (bool_decide_false (Some (canonical e) ≠ Some ""))
      by (intros H; apply H; congruence).
    rewrite (bool_decide_true (canonical e = "")) by done. apply IH. }
  rewrite (bool_decide_true (Some (canonical e) ≠ Some "")) by congruence.
  rewrite (bool_decide_false (canonical e = "")) by done.
  cbn [map email pd.duplicated_from].
  destruct (decide (canonical e ∈ seen)) as [S|S].
  - rewrite (bool_decide_true (canonical e ∈ seen)) by done.
    rewrite (bool_decide_true (Some (canonical e) ∈ map Some seen))
      by (by apply list_elem_of_In, in_map, list_elem_of_In).
    cbn [map negb pd.select]. apply IH.
  - rewrite (bool_decide_false (canonical e ∈ seen)) by done.
    rewrite (bool_decide_false (Some (canonical e) ∈ map Some seen)).
    2:{ intros (k & [= ->] & Hk%list_elem_of_In)%list_elem_of_In%in_map_iff. done. }
    cbn [map negb pd.select]. f_equal. apply (IH (canonical e :: seen)).
Qed.

Lemma map_normalise rs : map norm_email (map norm_name rs) = map normalise rs.
Proof. by rewrite map_map. Qed.

Lemma norm_name_none rs :
  Forall (fun v : cell => v = None) (map name rs) -> map norm_name rs = rs.
Proof.
  induction rs as [|[i n e x] rs IH]; simpl; [done|].
  intros [-> H]%Forall_cons. by rewrite IH.
Qed.

Lemma norm_email_none rs :
  Forall (fun v : cell => v = None) (map email rs) -> map norm_email rs = rs.
Proof.
  induction rs as [|[i n e x] rs IH]; simpl; [done|].
  intros [-> H]%Forall_cons. by rewrite IH.
Qed.

Lemma email_norm_name rs : map email (map norm_name rs) = map email rs.
Proof. rewrite map_map. by apply map_ext. Qed.

(** The last steps of both variants, from the canonical rows on. *)
Lemma finish dn de rs :
  pd.reset_index
    (pd.drop_duplicates
       (pd.getitem_mask
          (pd.getitem_mask (mkDataFrame dn de (map normalise rs))
             (pd.notna (pd.getitem (mkDataFrame dn de (map normalise rs)) col_email)))
          (pd.ne
             (pd.getitem
                (pd.getitem_mask (mkDataFrame dn de (map normalise rs))
                   (pd.notna (pd.getitem (mkDataFrame dn de (map normalise rs)) col_email)))
                col_email) ""))
       col_email)
  = mkDataFrame dn de (cleaned rs).
Proof.
  rewrite getitem_notna, getitem_ne. cbn [rows name_dtype email_dtype].
  unfold pd.reset_index, pd.drop_duplicates, pd.getitem_mask, pd.duplicated, pd.getitem.
  cbn [rows name_dtype email_dtype values]. unfold cleaned. do 2 f_equal.
  apply (kept_rows []).
Qed.

End Rows.

(** ** The two variants, in closed form *)

Lemma Transform_clean_dataframe_eq df :
  Transform.clean_dataframe df =
  match name_dtype df, email_dtype df with
  | object, object => Ok (mkDataFrame object object (cleaned (rows df)))
  | _, _ => Raise AttributeError
  end.
Proof.
  unfold Transform.clean_dataframe, pd.copy.
  rewrite Rows.str_chain.
  change (sdtype (pd.getitem df col_name)) with (name_dtype df).
  destruct (name_dtype df) eqn:En; [|done].
  rewrite Rows.setitem_name, Rows.str_chain. cbn [sdtype pd.getitem email_dtype].
  destruct (email_dtype df) eqn:Ee; [|done].
  change (mkSeries object (map (option_map canonical) (map email (map norm_name (rows df)))))
    with (mkSeries object (map (option_map canonical)
            (values (pd.getitem (mkDataFrame object object (map norm_name (rows df))) col_email)))).
  rewrite Rows.setitem_email. cbn [rows name_dtype]. rewrite Rows.map_normalise.
  f_equal. apply Rows.finish.
Qed.

Lemma TestTransform_clean_dataframe_eq df :
  TestTransform.clean_dataframe df =
  match rows df with
  | [] => Ok df
  | _ :: _ =>
      match (if some_name df then name_dtype df else object),
            (if some_email df then email_dtype df else object) with
      | object, object =>
          Ok (mkDataFrame (if some_name df then object else name_dtype df)
                (if some_email df then object else email_dtype df)
                (cleaned (rows df)))
      | _, _ => Raise AttributeError
      end
  end.
Proof.
  unfold TestTransform.clean_dataframe, pd.copy, pd.len.
  destruct (rows df) as [|r0 rs0] eqn:Er; [done|].
  rewrite decide_False by done. rewrite <- Er. clear r0 rs0 Er.
  fold (some_name df).
  (* the name column *)
  assert (Hn :
    (if some_name df
     then s ← pd.str_strip (pd.getitem df col_name); s ← pd.str_lower s;
          Ok (pd.setitem df col_name s)
     else Ok df)
    = match (if some_name df then name_dtype df else object) with
      | object => Ok (mkDataFrame (if some_name df then object else name_dtype df)
                        (email_dtype df) (map norm_name (rows df)))
      | float64 => Raise AttributeError
      end).
  { destruct (some_name df) eqn:Sn.
    - rewrite Rows.str_chain.
      change (sdtype (pd.getitem df col_name)) with (name_dtype df).
      destruct (name_dtype df); [|done]. by rewrite Rows.setitem_name.
    - rewrite Rows.norm_name_none by (by apply pdFacts.any_notna_false).
      by destruct df. }
  rewrite Hn. clear Hn.
  destruct (if some_name df then name_dtype df else object); [|done].
  cbn [mbind result_bind].
  set (df1 := mkDataFrame (if some_name df then object else name_dtype df)
                (email_dtype df) (map norm_name (rows df))).
  assert (Se : pd.any (pd.notna (pd.getitem df1 col_email)) = some_email df).
  { unfold some_email, df1, pd.getitem. cbn [rows values pd.notna].
    by rewrite Rows.email_norm_name. }
  rewrite Se.
  assert (He :
    (if some_email df
     then s ← pd.str_strip (pd.getitem df1 col_email); s ← pd.str_lower s;
          Ok (pd.setitem df1 col_email s)
     else Ok df1)
    = match (if some_email df then email_dtype df else object) with
      | object => Ok (mkDataFrame (name_dtype df1)
                        (if some_email df then object else email_dtype df)
                        (map normalise (rows df)))
      | float64 => Raise AttributeError
      end).
  { destruct (some_email df) eqn:Sm.
    - rewrite Rows.str_chain.
      change (sdtype (pd.getitem df1 col_email)) with (email_dtype df).
      destruct (email_dtype df); [|done].
      rewrite Rows.setitem_email. unfold df1; cbn [rows name_dtype].
      by rewrite Rows.map_normalise.
    - rewrite <- Rows.map_normalise.
      rewrite (Rows.norm_email_none (map norm_name (rows df))).
      + done.
      + rewrite Rows.email_norm_name. by apply pdFacts.any_notna_false.
  }
  rewrite He. clear He.
  destruct (if some_email df then email_dtype df else object); [|done].
  cbn [mbind result_bind]. f_equal. apply Rows.finish.
Qed.

(** ** The records that are kept *)

Module Kept.

Lemma survivors_sublist seen rs : sublist (survivors seen rs) rs.
Proof.
  revert seen. induction rs as [|r rs IH]; intros seen; simpl; [constructor|].
  destruct (email r) as [e|]; [|by constructor].
  repeat case_bool_decide; by constructor.
Qed.

Lemma survivors_email seen rs :
  Forall (fun r => exists e, email r = Some e /\ canonical e ≠ "" /\ canonical e ∉ seen)
    (survivors seen rs).
Proof.
  revert seen. induction rs as [|r rs IH]; intros seen; simpl; [constructor|].
  destruct (email r) as [e|] eqn:Er; [|apply IH].
  repeat case_bool_decide; try apply IH.
  constructor; [by exists e|].
  eapply Forall_impl; [apply (IH (canonical e :: seen))|].
  intros r' (e' & ? & ? & Hn). exists e'. repeat split; [done..|].
  intros ?. apply Hn. by right.
Qed.

Lemma survivors_NoDup seen rs :
  NoDup (map (fun r => option_map canonical (email r)) (survivors seen rs)).
Proof.
  revert seen. induction rs as [|r rs IH]; intros seen; simpl; [constructor|].
  destruct (email r) as [e|] eqn:Er; [|apply IH].
  repeat case_bool_decide; try apply IH.
  simpl. rewrite Er. simpl. constructor; [|apply IH].
  intros (r' & Hk & Hr')%list_elem_of_In%in_map_iff.
  pose proof (survivors_email (canonical e :: seen) rs) as F.
  rewrite Forall_forall in F.
  destruct (F r' (proj2 (list_elem_of_In _ _) Hr')) as (e' & Ee' & _ & Hn).
  rewrite Ee' in Hk. simpl in Hk. injection Hk as Hk.
  apply Hn. rewrite Hk. by left.
Qed.

Lemma filter_other k rs :
  Forall (fun r => exists e, email r = Some e /\ canonical e ≠ k) rs ->
  List.filter (fun o => bool_decide (email o = Some k)) (map normalise rs) = [].
Proof.
  induction 1 as [|r rs (e & Ee & Hk) _ IH]; simpl; [done|].
  rewrite Ee. simpl. rewrite bool_decide_false by congruence. apply IH.
Qed.

(** The first record of a canonical email is the one that is kept. *)
Lemma survivors_first l1 r l2 e seen :
  email r = Some e ->
  canonical e ≠ "" ->
  canonical e ∉ seen ->
  (forall r' e', r' ∈ l1 -> email r' = Some e' -> canonical e' ≠ canonical e) ->
  List.filter (fun o => bool_decide (email o = Some (canonical e)))
    (map normalise (survivors seen (l1 ++ r :: l2)))
  = [normalise r].
Proof.
  intros Er Hne. revert seen.
  induction l1 as [|r1 l1 IH]; intros seen Hseen Hl1.
  - simpl. rewrite Er.
    rewrite bool_decide_false, bool_decide_false by done.
    simpl. rewrite Er. simpl. rewrite bool_decide_true by done.
    f_equal. apply filter_other.
    eapply Forall_impl; [apply (survivors_email (canonical e :: seen))|].
    intros r' (e' & ? & _ & Hn). exists e'. split; [done|].
    intros E. apply Hn. rewrite E. by left.
  - assert (Hl1' : forall r' e', r' ∈ l1 -> email r' = Some e' ->
                     canonical e' ≠ canonical e).
    { intros r' e' ?. apply Hl1. by right. }
    simpl. destruct (email r1) as [e1|] eqn:E1; [|by apply IH].
    repeat case_bool_decide; try by apply IH.
    simpl. rewrite E1. simpl.
    assert (canonical e1 ≠ canonical e) by (apply (Hl1 r1); [by left|done]).
    rewrite bool_decide_false by congruence.
    apply IH; [|done]. intros [?|?]%elem_of_cons; congruence.
Qed.

Lemma filter_renumber k i rs o :
  List.filter (fun o => bool_decide (email o = Some k)) rs = [o] ->
  exists j, List.filter (fun o => bool_decide (email o = Some k)) (pd.renumber i rs)
            = [mkRow j (name o) (email o) (extras o)].
Proof.
  revert i. induction rs as [|r rs IH]; intros i; simpl; [done|].
  case_bool_decide as E.
  - intros [= -> Hrs]. exists i. f_equal.
    clear IH E. revert Hrs. generalize (i + 1)%Z.
    induction rs as [|r rs IH]; intros j; simpl; [done|].
    case_bool_decide; [done|]. apply IH.
  - apply IH.
Qed.

(** A table that is already clean is made of survivors only. *)
Lemma survivors_fixed seen rs :
  Forall (fun r => exists k, email r = Some k /\ canonical k = k /\ k ≠ "" /\ k ∉ seen) rs ->
  NoDup (map email rs) ->
  survivors seen rs = rs.
Proof.
  revert seen. induction rs as [|r rs IH]; intros seen; simpl; [done|].
  intros [(k & Ek & Ec & Hk & Hs) F]%Forall_cons [Hr N]%NoDup_cons.
  rewrite Ek, Ec.
  rewrite bool_decide_false, bool_decide_false by done.
  f_equal. apply IH; [|done].
  rewrite Forall_forall in F |- *. intros r' Hr'.
  destruct (F r' Hr') as (k' & Ek' & ? & ? & ?). exists k'. repeat split; try done.
  intros [->|?]%elem_of_cons; [|done].
  apply Hr. rewrite Ek, <- Ek'. apply list_elem_of_In, in_map. by apply list_elem_of_In.
Qed.

Lemma normalise_idem r : normalise (normalise r) = normalise r.
Proof.
  destruct r as [i [n|] [e|] x]; unfold normalise, norm_email, norm_name; simpl;
    by rewrite ?canonical_idem.
Qed.

Lemma cleaned_from_survivors rs : Forall2 cleaned_from (survivors [] rs) (cleaned rs).
Proof.
  unfold cleaned. generalize (survivors [] rs) 0%Z. clear rs.
  induction l as [|r l IH]; intros i; simpl; constructor; [|apply IH].
  by repeat split.
Qed.

Lemma cleaned_email rs :
  map email (cleaned rs)
  = map (fun r => option_map canonical (email r)) (survivors [] rs).
Proof. unfold cleaned. by rewrite pdFacts.renumber_email, map_map. Qed.

Lemma cleaned_idem rs : cleaned (cleaned rs) = cleaned rs.
Proof.
  assert (E : survivors [] (cleaned rs) = cleaned rs).
  { apply survivors_fixed.
    - eapply Forall2_Forall_r; [apply cleaned_from_survivors|].
      eapply Forall_impl; [apply (survivors_email [] rs)|].
      intros r (e & Ee & Hne & _) o (_ & Eo & _).
      exists (canonical e). rewrite Eo, Ee. repeat split; try done.
      + apply canonical_idem.
      + apply not_elem_of_nil.
    - rewrite cleaned_email. apply survivors_NoDup. }
  unfold cleaned at 1. rewrite E. unfold cleaned.
  rewrite pdFacts.renumber_map_normalise, map_map.
  f_equal. apply map_ext. intros r. apply normalise_idem.
Qed.

End Kept.

(** What either variant returns has the rows [cleaned] computes. *)
Lemma rows_of_output df out :
  Transform.clean_dataframe df = Ok out \/ TestTransform.clean_dataframe df = Ok out ->
  rows out = cleaned (rows df).
Proof.
  intros [H|H].
  - rewrite Transform_clean_dataframe_eq in H.
    destruct (name_dtype df), (email_dtype df); try done. by injection H as <-.
  - rewrite TestTransform_clean_dataframe_eq in H.
    destruct (rows df) as [|r rs] eqn:Er; [injection H as <-; by rewrite Er|].
    destruct (if some_name df then name_dtype df else object),
             (if some_email df then email_dtype df else object); try done.
    by injection H as <-.
Qed.

(** * The claims *)

(** Scenario 1 of the specification, on both variants. *)
Example scenario_trim_lower :
  let df := text_table [rec (Some " John Doe ") (Some " JOHN@EXAMPLE.COM ");
                        rec (Some "Jane") (Some "jane@example.com")] in
  let out := text_table [mkRow 0 (Some "john doe") (Some "john@example.com") [];
                         mkRow 1 (Some "jane") (Some "jane@example.com") []] in
  Transform.clean_dataframe df = Ok out /\ TestTransform.clean_dataframe df = Ok out.
Proof. by vm_compute. Qed.

(** Scenarios 2 and 4: a record with a missing or an empty email is dropped.
    The emails [None, 'b@x.com'] and [''] make [object] columns. *)
Example scenario_null_email :
  Transform.clean_dataframe
    (text_table [rec (Some "A") None; rec (Some "B") (Some "b@x.com")])
  = Ok (text_table [mkRow 0 (Some "b") (Some "b@x.com") []]).
Proof. by vm_compute. Qed.

Example scenario_empty_email :
  Transform.clean_dataframe (text_table [rec (Some "A") (Some "")]) = Ok (text_table []).
Proof. by vm_compute. Qed.

(** [test_all_nulls]: the emails [[None, np.nan]] make a [float64] column.
    The variant of the tests returns no row; the variant of
    [src/transform.py] does not return. *)
Example all_nulls :
  let df := mkDataFrame object float64
              [rec (Some "John Doe") None; rec (Some "Jane Smith") None] in
  TestTransform.clean_dataframe df = Ok (mkDataFrame object float64 []) /\
  Transform.clean_dataframe df = Raise AttributeError.
Proof. by vm_compute. Qed.

(** Scenario 3: the first of two records with the same canonical email wins. *)
Example scenario_first_wins :
  Transform.clean_dataframe
    (text_table [rec (Some "A") (Some "x@y.com"); rec (Some "B") (Some "X@Y.COM")])
  = Ok (text_table [mkRow 0 (Some "a") (Some "x@y.com") []]).
Proof. by vm_compute. Qed.

(** C1, as amended. Let [r] be the earliest input record of its canonical
    email, and let that canonical email be non-empty. Then the output of
    either variant holds exactly one record with this email: the cleaned form
    of [r], with the name and the other fields of [r]. Every later record of
    the same canonical email is dropped. *)
Theorem first_wins df out l1 r l2 e :
  Transform.clean_dataframe df = Ok out \/ TestTransform.clean_dataframe df = Ok out ->
  rows df = l1 ++ r :: l2 ->
  email r = Some e ->
  canonical e ≠ "" ->
  (forall r' e', r' ∈ l1 -> email r' = Some e' -> canonical e' ≠ canonical e) ->
  exists i,
    List.filter (fun o => bool_decide (email o = Some (canonical e))) (rows out)
    = [mkRow i (option_map canonical (name r)) (Some (canonical e)) (extras r)].
Proof.
  intros Hout Hrows Er Hne Hfirst.
  rewrite (rows_of_output df out Hout), Hrows. unfold cleaned.
  destruct (Kept.filter_renumber (canonical e) 0
              (map normalise (survivors [] (l1 ++ r :: l2))) (normalise r)) as [j Hj].
  - apply Kept.survivors_first; try done. apply not_elem_of_nil.
  - exists j. rewrite Hj. simpl. by rewrite Er.
Qed.

Lemma first_wins_witness :
  exists i,
    List.filter (fun o => bool_decide (email o = Some (canonical "x@y.com")))
      (rows (text_table [mkRow 0 (Some "a") (Some "x@y.com") []]))
    = [mkRow i (option_map canonical (Some "A")) (Some (canonical "x@y.com")) []].
Proof.
  apply (first_wins
           (text_table [rec (Some "A") (Some "x@y.com"); rec (Some "B") (Some "X@Y.COM")])
           (text_table [mkRow 0 (Some "a") (Some "x@y.com") []])
           [] (rec (Some "A") (Some "x@y.com")) [rec (Some "B") (Some "X@Y.COM")]
           "x@y.com").
  - left. vm_compute. reflexivity.
  - reflexivity.
  - reflexivity.
  - vm_compute. discriminate.
  - intros r' e' H. inversion H.
Defined.

(** C1 as it is written fails: two records whose emails are both blank have
    the same canonical email, the empty text, and neither of them is kept. *)
Lemma first_wins_fails_on_blank_emails :
  ~ (forall df out l1 r l2 e,
       Transform.clean_dataframe df = Ok out ->
       rows df = l1 ++ r :: l2 ->
       email r = Some e ->
       (forall r' e', r' ∈ l1 -> email r' = Some e' -> canonical e' ≠ canonical e) ->
       exists i,
         List.filter (fun o => bool_decide (email o = Some (canonical e))) (rows out)
         = [mkRow i (option_map canonical (name r)) (Some (canonical e)) (extras r)]).
Proof.
  intros H.
  destruct (H (text_table [rec (Some "A") (Some " "); rec (Some "B") (Some "")])
              (text_table [])
              [] (rec (Some "A") (Some " ")) [rec (Some "B") (Some "")] " ")
    as [i Hi]; try done.
  intros r' e' Hr'. inversion Hr'.
Qed.

(** C2. Every record of the output is the cleaned form of a record of the
    input, taken in order: its email is the stripped and lowercased email of
    that record (in either order of the two steps), and its name is the
    stripped and lowercased name of that record, or missing when that name
    is missing. *)
Theorem output_fields_canonical df out :
  Transform.clean_dataframe df = Ok out \/ TestTransform.clean_dataframe df = Ok out ->
  exists kept,
    sublist kept (rows df) /\
    Forall2 (fun r o =>
               (exists e, email r = Some e /\
                          email o = Some (Str.lower (Str.strip e)) /\
                          email o = Some (Str.strip (Str.lower e))) /\
               match name r with
               | Some n => name o = Some (Str.lower (Str.strip n)) /\
                           name o = Some (Str.strip (Str.lower n))
               | None => name o = None
               end)
      kept (rows out).
Proof.
  intros Hout. rewrite (rows_of_output df out Hout).
  exists (survivors [] (rows df)). split; [apply Kept.survivors_sublist|].
  pose proof (Kept.cleaned_from_survivors (rows df)) as F2.
  pose proof (Kept.survivors_email [] (rows df)) as F.
  revert F. induction F2 as [|r o l k (Hn & He & _) _ IH]; [constructor|].
  intros [(e & Ee & _) F]%Forall_cons. constructor; [|by apply IH].
  split.
  - exists e. rewrite He, Ee. simpl. rewrite <- canonical_trim_lower. by repeat split.
  - rewrite Hn. destruct (name r) as [n|]; simpl; [|done].
    by rewrite <- canonical_trim_lower.
Qed.

Lemma output_fields_canonical_witness :
  exists kept,
    sublist kept (rows (text_table [rec (Some "A") (Some "x@y.com");
                                    rec (Some "B") (Some "X@Y.COM")])) /\
    Forall2 (fun r o =>
               (exists e, email r = Some e /\
                          email o = Some (Str.lower (Str.strip e)) /\
                          email o = Some (Str.strip (Str.lower e))) /\
               match name r with
               | Some n => name o = Some (Str.lower (Str.strip n)) /\
                           name o = Some (Str.strip (Str.lower n))
               | None => name o = None
               end)
      kept (rows (text_table [mkRow 0 (Some "a") (Some "x@y.com") []])).
Proof.
  apply (output_fields_canonical
           (text_table [rec (Some "A") (Some "x@y.com"); rec (Some "B") (Some "X@Y.COM")])).
  left. vm_compute. reflexivity.
Defined.

(** C3. Every record of the output has an email that is a text, and not the
    empty one. The input records the output is made of have no missing email
    and no email made of white space only: stripping comes before the
    filter, so such records are removed. *)
Theorem no_null_or_empty_email df out :
  Transform.clean_dataframe df = Ok out \/ TestTransform.clean_dataframe df = Ok out ->
  Forall (fun o => exists e, email o = Some e /\ e ≠ "") (rows out) /\
  exists kept,
    sublist kept (rows df) /\
    Forall2 cleaned_from kept (rows out) /\
    Forall (fun r => exists e, email r = Some e /\ Str.all_space e = false) kept.
Proof.
  intros Hout. rewrite (rows_of_output df out Hout).
  pose proof (Kept.cleaned_from_survivors (rows df)) as F2.
  pose proof (Kept.survivors_email [] (rows df)) as F.
  split.
  - eapply Forall2_Forall_r; [exact F2|].
    eapply Forall_impl; [exact F|].
    intros r (e & Ee & Hne & _) o (_ & Eo & _).
    exists (canonical e). by rewrite Eo, Ee.
  - exists (survivors [] (rows df)).
    split; [apply Kept.survivors_sublist|]. split; [exact F2|].
    eapply Forall_impl; [exact F|].
    intros r (e & Ee & Hne & _). exists e. split; [done|].
    destruct (Str.all_space e) eqn:Hs; [|done].
    by apply canonical_empty in Hs.
Qed.

Lemma no_null_or_empty_email_witness :
  Forall (fun o => exists e, email o = Some e /\ e ≠ "")
    (rows (text_table [mkRow 0 (Some "b") (Some "b@x.com") []])) /\
  exists kept,
    sublist kept (rows (text_table [rec (Some "A") (Some "  ");
                                    rec (Some "B") (Some "b@x.com");
                                    rec (Some "C") None])) /\
    Forall2 cleaned_from kept (rows (text_table [mkRow 0 (Some "b") (Some "b@x.com") []])) /\
    Forall (fun r => exists e, email r = Some e /\ Str.all_space e = false) kept.
Proof.
  apply (no_null_or_empty_email
           (text_table [rec (Some "A") (Some "  "); rec (Some "B") (Some "b@x.com");
                        rec (Some "C") None])).
  left. vm_compute. reflexivity.
Defined.

(** C4. No two records of the output have the same email. *)
Theorem output_emails_unique df out :
  Transform.clean_dataframe df = Ok out \/ TestTransform.clean_dataframe df = Ok out ->
  NoDup (map email (rows out)).
Proof.
  intros Hout. rewrite (rows_of_output df out Hout), Kept.cleaned_email.
  apply Kept.survivors_NoDup.
Qed.

Lemma output_emails_unique_witness :
  NoDup (map email (rows (text_table [mkRow 0 (Some "a") (Some "x@y.com") []]))).
Proof.
  apply (output_emails_unique
           (text_table [rec (Some "A") (Some "x@y.com"); rec (Some "B") (Some " X@Y.COM")])).
  left. vm_compute. reflexivity.
Defined.

(** C5. The output is made of a sub-sequence of the input records, in their
    input order, each in its cleaned form, and its index labels are
    0, 1, 2, ... without a gap. *)
Theorem output_stable_and_reindexed df out :
  Transform.clean_dataframe df = Ok out \/ TestTransform.clean_dataframe df = Ok out ->
  (exists kept, sublist kept (rows df) /\ Forall2 cleaned_from kept (rows out)) /\
  map label (rows out) = map Z.of_nat (seq 0 (List.length (rows out))).
Proof.
  intros Hout. rewrite (rows_of_output df out Hout). split.
  - exists (survivors [] (rows df)).
    split; [apply Kept.survivors_sublist|apply Kept.cleaned_from_survivors].
  - unfold cleaned. by rewrite pdFacts.renumber_labels, pdFacts.renumber_length.
Qed.

Lemma output_stable_and_reindexed_witness :
  (exists kept,
      sublist kept (rows (text_table [mkRow 7 (Some "A") None [];
                                      mkRow 3 (Some "B") (Some "b@x.com") [Some "k"];
                                      mkRow 3 None (Some "B@X.com") [];
                                      mkRow 5 None (Some "c@x.com") []])) /\
      Forall2 cleaned_from kept
        (rows (text_table [mkRow 0 (Some "b") (Some "b@x.com") [Some "k"];
                           mkRow 1 None (Some "c@x.com") []]))) /\
  map label (rows (text_table [mkRow 0 (Some "b") (Some "b@x.com") [Some "k"];
                               mkRow 1 None (Some "c@x.com") []]))
  = map Z.of_nat (seq 0 (List.length
      (rows (text_table [mkRow 0 (Some "b") (Some "b@x.com") [Some "k"];
                         mkRow 1 None (Some "c@x.com") []])))).
Proof.
  apply (output_stable_and_reindexed
           (text_table [mkRow 7 (Some "A") None [];
                        mkRow 3 (Some "B") (Some "b@x.com") [Some "k"];
                        mkRow 3 None (Some "B@X.com") [];
                        mkRow 5 None (Some "c@x.com") []])).
  left. vm_compute. reflexivity.
Defined.

(** C6. On the empty table of [test_empty_dataframe], whose columns are
    [float64], the variant of [src/transform.py] raises [AttributeError]:
    it reaches the [.str] accessor, which refuses the column. The variant of
    the tests returns the empty table. *)
Theorem empty_table_unguarded_raises :
  Transform.clean_dataframe empty_table = Raise AttributeError /\
  TestTransform.clean_dataframe empty_table = Ok empty_table.
Proof. split; reflexivity. Qed.

(** An empty table whose columns have dtype [object] goes through. *)
Lemma empty_text_table_returns :
  Transform.clean_dataframe (text_table []) = Ok (text_table []) /\
  TestTransform.clean_dataframe (text_table []) = Ok (text_table []).
Proof. split; reflexivity. Qed.

(** The unguarded variant returns exactly on the tables whose two columns
    have dtype [object]. *)
Lemma Transform_returns_iff df :
  (exists out, Transform.clean_dataframe df = Ok out)
  <-> name_dtype df = object /\ email_dtype df = object.
Proof.
  rewrite Transform_clean_dataframe_eq.
  destruct (name_dtype df), (email_dtype df); split; try (intros [? ?]; done); eauto.
Qed.

(** The guarded variant returns on every table as pandas builds them: a
    [float64] column holds missing values only, and the guards keep the
    [.str] accessor away from it. *)
Lemma TestTransform_returns df :
  well_typed df -> exists out, TestTransform.clean_dataframe df = Ok out.
Proof.
  intros [Wn We]. rewrite TestTransform_clean_dataframe_eq.
  assert (Hn : (if some_name df then name_dtype df else object) = object).
  { destruct (some_name df) eqn:S; [|done].
    destruct (name_dtype df); [done|]. exfalso.
    specialize (Wn eq_refl). unfold some_name, pd.any, pd.notna, pd.getitem in S.
    cbn [values] in S. apply existsb_exists in S as (b & Hb & Eb).
    unfold id in Eb. subst b. apply in_map_iff in Hb as (v & Hv & Hin).
    apply in_map_iff in Hin as (r' & <- & Hr').
    rewrite Forall_forall in Wn. rewrite (Wn r') in Hv by (by apply list_elem_of_In).
    by apply bool_decide_eq_true in Hv. }
  assert (He : (if some_email df then email_dtype df else object) = object).
  { destruct (some_email df) eqn:S; [|done].
    destruct (email_dtype df); [done|]. exfalso.
    specialize (We eq_refl). unfold some_email, pd.any, pd.notna, pd.getitem in S.
    cbn [values] in S. apply existsb_exists in S as (b & Hb & Eb).
    unfold id in Eb. subst b. apply in_map_iff in Hb as (v & Hv & Hin).
    apply in_map_iff in Hin as (r' & <- & Hr').
    rewrite Forall_forall in We. rewrite (We r') in Hv by (by apply list_elem_of_In).
    by apply bool_decide_eq_true in Hv. }
  rewrite Hn, He. destruct (rows df); eauto.
Qed.

Lemma blank_names_table_well_typed : well_typed blank_names_table.
Proof. split; [intros _; by repeat constructor|done]. Qed.

(** C7. On a table whose names are all missing, held in a [float64] column,
    the variant of [src/transform.py] raises [AttributeError] where the
    variant of the tests skips the column and returns the cleaned table:
    here the two do not compute the same output. *)
Lemma variants_differ_on_blank_names :
  Transform.clean_dataframe blank_names_table = Raise AttributeError /\
  TestTransform.clean_dataframe blank_names_table
  = Ok (mkDataFrame float64 object
          [mkRow 0 None (Some "a@x.com") []; mkRow 1 None (Some "b@x.com") []]) /\
  Transform.clean_dataframe blank_names_table
  ≠ TestTransform.clean_dataframe blank_names_table.
Proof. repeat split; [reflexivity..|]. by vm_compute. Qed.

(** On every table whose [name] and [email] columns have dtype [object],
    the two variants return, and return the same table. *)
Theorem variants_agree_on_text_columns df :
  name_dtype df = object ->
  email_dtype df = object ->
  exists out,
    Transform.clean_dataframe df = Ok out /\
    TestTransform.clean_dataframe df = Ok out.
Proof.
  intros En Ee.
  rewrite Transform_clean_dataframe_eq, TestTransform_clean_dataframe_eq, En, Ee.
  destruct (rows df) as [|r rs] eqn:Er.
  - exists df. split; [|done]. destruct df as [dn de rs]; simpl in *. by subst.
  - exists (mkDataFrame object object (cleaned (r :: rs))). split; [done|].
    by destruct (some_name df), (some_email df).
Qed.

Lemma variants_agree_on_text_columns_witness :
  exists out,
    Transform.clean_dataframe
      (text_table [rec (Some "A") (Some "x@y.com"); rec None (Some "X@Y.COM")]) = Ok out /\
    TestTransform.clean_dataframe
      (text_table [rec (Some "A") (Some "x@y.com"); rec None (Some "X@Y.COM")]) = Ok out.
Proof.
  apply (variants_agree_on_text_columns
           (text_table [rec (Some "A") (Some "x@y.com"); rec None (Some "X@Y.COM")]));
    reflexivity.
Defined.

(** Whenever the unguarded variant returns, the guarded one returns the
    same table. *)
Lemma TestTransform_extends_Transform df out :
  Transform.clean_dataframe df = Ok out -> TestTransform.clean_dataframe df = Ok out.
Proof.
  rewrite Transform_clean_dataframe_eq, TestTransform_clean_dataframe_eq.
  destruct (name_dtype df) eqn:En; [|done].
  destruct (email_dtype df) eqn:Ee; [|done].
  intros [= <-]. destruct (rows df) as [|r rs] eqn:Er.
  - destruct df as [dn de rs]; simpl in *. by subst.
  - by destruct (some_name df), (some_email df).
Qed.

(** C8. Cleaning a cleaned table changes nothing. *)
Theorem clean_dataframe_idempotent df out :
  Transform.clean_dataframe df = Ok out ->
  Transform.clean_dataframe out = Ok out.
Proof.
  rewrite !Transform_clean_dataframe_eq.
  destruct (name_dtype df), (email_dtype df); try done.
  intros [= <-]. simpl. by rewrite Kept.cleaned_idem.
Qed.

Lemma clean_dataframe_idempotent_witness :
  Transform.clean_dataframe
    (text_table [mkRow 0 (Some "b") (Some "b@x.com") [Some "k"];
                 mkRow 1 None (Some "c@x.com") []])
  = Ok (text_table [mkRow 0 (Some "b") (Some "b@x.com") [Some "k"];
                    mkRow 1 None (Some "c@x.com") []]).
Proof.
  apply (clean_dataframe_idempotent
           (text_table [mkRow 7 (Some "A") None [];
                        mkRow 3 (Some " B") (Some "b@x.com ") [Some "k"];
                        mkRow 3 None (Some "B@X.com") [];
                        mkRow 5 None (Some "c@x.com") []])).
  vm_compute. reflexivity.
Defined.

(** The guarded variant is idempotent as well. *)
Lemma survivors_Forall (P : Row -> Prop) seen rs :
  Forall P rs -> Forall P (survivors seen rs).
Proof.
  intros F. revert seen. induction F as [|r rs Hr F IH]; intros seen; simpl; [constructor|].
  destruct (email r); [|apply IH].
  repeat case_bool_decide; try apply IH. constructor; [done|apply IH].
Qed.

Lemma any_notna_cleaned (f : Row -> cell) rs :
  (forall r o, cleaned_from r o -> f r = None -> f o = None) ->
  pd.any (pd.notna (mkSeries object (map f rs))) = false ->
  pd.any (pd.notna (mkSeries object (map f (cleaned rs)))) = false.
Proof.
  intros Hf H. apply pdFacts.any_notna_false in H. cbn [values] in H.
  assert (F : Forall (fun o => f o = None) (cleaned rs)).
  { eapply Forall2_Forall_r; [apply Kept.cleaned_from_survivors|].
    apply survivors_Forall.
    rewrite Forall_forall in H. rewrite Forall_forall. intros r Hr o Ho. apply (Hf r o Ho).
    apply H, list_elem_of_In, in_map. by apply list_elem_of_In. }
  unfold pd.any, pd.notna. cbn [values].
  induction F as [|o os Ho F IH]; simpl; [done|].
  rewrite Ho, IH. by rewrite bool_decide_false by (intros ?; done).
Qed.

Lemma TestTransform_idempotent df out :
  TestTransform.clean_dataframe df = Ok out ->
  TestTransform.clean_dataframe out = Ok out.
Proof.
  intros H. pose proof H as H'. rewrite TestTransform_clean_dataframe_eq in H'.
  destruct (rows df) as [|r0 rs0] eqn:Er; [by injection H' as <-|].
  rewrite <- Er in H'. clear r0 rs0 Er.
  assert (Sn : some_name df = false ->
               forall dn de, some_name (mkDataFrame dn de (cleaned (rows df))) = false).
  { intros S dn de. unfold some_name, pd.getitem in *. cbn [rows name_dtype] in *.
    apply (any_notna_cleaned name); [|exact S].
    intros r o (-> & _) ->. done. }
  assert (Se : some_email df = false ->
               forall dn de, some_email (mkDataFrame dn de (cleaned (rows df))) = false).
  { intros S dn de. unfold some_email, pd.getitem in *. cbn [rows email_dtype] in *.
    apply (any_notna_cleaned email); [|exact S].
    intros r o (_ & -> & _) ->. done. }
  rewrite TestTransform_clean_dataframe_eq.
  destruct (some_name df) eqn:S1, (some_email df) eqn:S2;
    destruct (name_dtype df) eqn:D1, (email_dtype df) eqn:D2; try done;
    injection H' as <-; cbn [rows name_dtype email_dtype];
    rewrite ?Sn, ?Se by done; rewrite Kept.cleaned_idem;
    destruct (cleaned (rows df)) eqn:Ec; try done;
    repeat match goal with
           | |- context [some_name ?x] => destruct (some_name x)
           | |- context [some_email ?x] => destruct (some_email x)
           end; done.
Qed.

(** C10. The output has at most as many records as the input. *)
Theorem output_not_longer df out :
  Transform.clean_dataframe df = Ok out \/ TestTransform.clean_dataframe df = Ok out ->
  List.length (rows out) <= List.length (rows df).
Proof.
  intros Hout. rewrite (rows_of_output df out Hout). unfold cleaned.
  rewrite pdFacts.renumber_length, length_map.
  apply sublist_length, Kept.survivors_sublist.
Qed.

Lemma output_not_longer_witness :
  List.length (rows (text_table [mkRow 0 (Some "a") (Some "x@y.com") []]))
  <= List.length (rows (text_table [rec (Some "A") (Some "x@y.com");
                                    rec (Some "B") (Some " X@Y.COM")])).
Proof.
  apply (output_not_longer
           (text_table [rec (Some "A") (Some "x@y.com"); rec (Some "B") (Some " X@Y.COM")])).
  left. vm_compute. reflexivity.
Defined.

(** ** Tables as objects: the input is not changed *)

Module Obj.

Lemma bind_run {A B} (f : A -> M B) (m : M A) (h : store) :
  (m ≫= f) h
  = match m h with
    | Some (h', Ok a) => f a h'
    | Some (h', Raise e) => Some (h', Raise e)
    | None => None
    end.
Proof. reflexivity. Qed.

Lemma lookup_last (h : store) d : (h ++ [d]) !! List.length h = Some d.
Proof. induction h as [|x h IH]; simpl; [done|apply IH]. Qed.

Lemma insert_last (h : store) d d' : <[List.length h := d']> (h ++ [d]) = h ++ [d'].
Proof. induction h as [|x h IH]; simpl; [done|]. by rewrite IH. Qed.

Lemma read_last h d : pdobj.read (List.length h) (h ++ [d]) = Some (h ++ [d], Ok d).
Proof. unfold pdobj.read. by rewrite lookup_last. Qed.

Lemma copy_run h df d :
  h !! df = Some d -> pdobj.copy df h = Some (h ++ [d], Ok (List.length h)).
Proof. intros E. unfold pdobj.copy, pdobj.read. rewrite bind_run, E. done. Qed.

Lemma len_last h d :
  pdobj.len (List.length h) (h ++ [d]) = Some (h ++ [d], Ok (pd.len d)).
Proof. unfold pdobj.len. by rewrite bind_run, read_last. Qed.

Lemma getitem_last h d c :
  pdobj.getitem (List.length h) c (h ++ [d]) = Some (h ++ [d], Ok (pd.getitem d c)).
Proof. unfold pdobj.getitem. by rewrite bind_run, read_last. Qed.

Lemma setitem_last h d c s :
  pdobj.setitem (List.length h) c s (h ++ [d]) = Some (h ++ [pd.setitem d c s], Ok tt).
Proof.
  unfold pdobj.setitem. rewrite bind_run, read_last.
  unfold pdobj.write. by rewrite lookup_last, insert_last.
Qed.

Lemma getitem_mask_last h d mask :
  pdobj.getitem_mask (List.length h) mask (h ++ [d])
  = Some ((h ++ [d]) ++ [pd.getitem_mask d mask], Ok (List.length (h ++ [d]))).
Proof. unfold pdobj.getitem_mask. by rewrite bind_run, read_last. Qed.

Lemma drop_duplicates_last h d c :
  pdobj.drop_duplicates (List.length h) c (h ++ [d])
  = Some ((h ++ [d]) ++ [pd.drop_duplicates d c], Ok (List.length (h ++ [d]))).
Proof. unfold pdobj.drop_duplicates. by rewrite bind_run, read_last. Qed.

Lemma reset_index_last h d :
  pdobj.reset_index (List.length h) (h ++ [d])
  = Some ((h ++ [d]) ++ [pd.reset_index d], Ok (List.length (h ++ [d]))).
Proof. unfold pdobj.reset_index. by rewrite bind_run, read_last. Qed.

Lemma lift_run {A B} (r : result A) (f : A -> M B) h :
  (pdobj.lift r ≫= f) h
  = match r with
    | Ok a => f a h
    | Raise e => Some (h, Raise e)
    end.
Proof. by destruct r. Qed.

(** One step of a run on a store whose last object is the one at hand. *)
Ltac run_step :=
  first
    [ rewrite lift_run
    | rewrite bind_run;
      first [ rewrite getitem_last | rewrite setitem_last | rewrite getitem_mask_last
            | rewrite drop_duplicates_last | rewrite reset_index_last
            | rewrite len_last ] ];
  cbv beta iota.

End Obj.

Lemma extends_one h d : extends h (h ++ [d]).
Proof. by exists [d]. Qed.

Lemma extends_snoc h h' d : extends h h' -> extends h (h' ++ [d]).
Proof. intros [ext ->]. exists (ext ++ [d]). by rewrite app_assoc. Qed.

Lemma extends_lookup h h' l d : extends h h' -> h !! l = Some d -> h' !! l = Some d.
Proof. intros [ext ->]. apply lookup_app_l_Some. Qed.

Lemma extends_length h h' : extends h h' -> List.length h <= List.length h'.
Proof. intros [ext ->]. rewrite length_app. lia. Qed.

Lemma Transform_runs h df d :
  h !! df = Some d ->
  runs_as Transform.clean_dataframe_obj Transform.clean_dataframe h df d.
Proof.
  intros Hd. unfold runs_as, Transform.clean_dataframe_obj, Transform.clean_dataframe.
  rewrite Obj.bind_run, (Obj.copy_run h df d Hd). cbv beta iota zeta.
  unfold pd.copy.
  Obj.run_step.
  Obj.run_step. destruct (pd.str_strip (pd.getitem d col_name)) as [s1|e] eqn:E1.
  2:{ eexists _, _. split; [done|]. split; [apply extends_one|reflexivity]. }
  Obj.run_step. cbn [mbind result_bind].
  destruct (pd.str_lower s1) as [s2|e] eqn:E2.
  2:{ eexists _, _. split; [done|]. split; [apply extends_one|reflexivity]. }
  cbn [mbind result_bind].
  Obj.run_step. Obj.run_step.
  Obj.run_step.
  destruct (pd.str_strip (pd.getitem (pd.setitem d col_name s2) col_email)) as [s3|e] eqn:E3.
  2:{ eexists _, _. split; [done|]. split; [apply extends_one|reflexivity]. }
  Obj.run_step. cbn [mbind result_bind].
  destruct (pd.str_lower s3) as [s4|e] eqn:E4.
  2:{ eexists _, _. split; [done|]. split; [apply extends_one|reflexivity]. }
  cbn [mbind result_bind].
  Obj.run_step. Obj.run_step. Obj.run_step. Obj.run_step. Obj.run_step.
  Obj.run_step. Obj.run_step.
  eexists _, _. split; [reflexivity|].
  split; [do 4 apply extends_snoc; apply extends_one|].
  split; [rewrite !length_app; lia|].
  eexists. split; [apply Obj.lookup_last|reflexivity].
Qed.

(** The guarded canonicalisation of a column, on the object and on the
    value. *)
Lemma guarded_column_run h d c :
  (if pd.any (pd.notna (pd.getitem d c)) then
     s ← pdobj.getitem (List.length h) c;
     s ← pdobj.lift (pd.str_strip s);
     s ← pdobj.lift (pd.str_lower s);
     pdobj.setitem (List.length h) c s
   else mret tt) (h ++ [d])
  = match (if pd.any (pd.notna (pd.getitem d c)) then
             s ← pd.str_strip (pd.getitem d c);
             s ← pd.str_lower s;
             Ok (pd.setitem d c s)
           else Ok d) with
    | Ok d' => Some (h ++ [d'], Ok tt)
    | Raise e => Some (h ++ [d], Raise e)
    end.
Proof.
  destruct (pd.any (pd.notna (pd.getitem d c))); [|done].
  Obj.run_step. Obj.run_step.
  destruct (pd.str_strip (pd.getitem d c)) as [s1|e]; [|done].
  Obj.run_step. cbn [mbind result_bind].
  destruct (pd.str_lower s1) as [s2|e]; [|done].
  apply Obj.setitem_last.
Qed.

Lemma TestTransform_runs h df d :
  h !! df = Some d ->
  runs_as TestTransform.clean_dataframe_obj TestTransform.clean_dataframe h df d.
Proof.
  intros Hd.
  unfold runs_as, TestTransform.clean_dataframe_obj, TestTransform.clean_dataframe.
  rewrite Obj.bind_run, (Obj.copy_run h df d Hd). cbv beta iota zeta.
  unfold pd.copy.
  Obj.run_step.
  destruct (decide (pd.len d = 0%nat)) as [E0|E0].
  { eexists _, _. split; [reflexivity|]. split; [apply extends_one|].
    split; [done|]. eexists. split; [apply Obj.lookup_last|done]. }
  Obj.run_step.
  rewrite Obj.bind_run, guarded_column_run.
  destruct (if pd.any (pd.notna (pd.getitem d col_name))
            then s ← pd.str_strip (pd.getitem d col_name); s ← pd.str_lower s;
                 Ok (pd.setitem d col_name s)
            else Ok d) as [d1|e].
  2:{ eexists _, _. split; [done|]. split; [apply extends_one|reflexivity]. }
  cbv beta iota. cbn [mbind result_bind].
  Obj.run_step.
  rewrite Obj.bind_run, guarded_column_run.
  destruct (if pd.any (pd.notna (pd.getitem d1 col_email))
            then s ← pd.str_strip (pd.getitem d1 col_email); s ← pd.str_lower s;
                 Ok (pd.setitem d1 col_email s)
            else Ok d1) as [d2|e].
  2:{ eexists _, _. split; [done|]. split; [apply extends_one|reflexivity]. }
  cbv beta iota. cbn [mbind result_bind].
  Obj.run_step. Obj.run_step. Obj.run_step. Obj.run_step. Obj.run_step. Obj.run_step.
  eexists _, _. split; [reflexivity|].
  split; [do 4 apply extends_snoc; apply extends_one|].
  split; [rewrite !length_app; lia|].
  eexists. split; [apply Obj.lookup_last|reflexivity].
Qed.

(** C9. A call of either variant on the table object [df] changes no object
    of the store: after it, [df] still holds the table [d] it held, with the
    names and emails as they were. The table that is returned is a new
    object, at a reference that was not in use before the call. *)
Theorem input_not_mutated h df d :
  h !! df = Some d ->
  leaves_store Transform.clean_dataframe_obj h df /\
  leaves_store TestTransform.clean_dataframe_obj h df.
Proof.
  intros Hd.
  assert (G : forall clean value, runs_as clean value h df d -> leaves_store clean h df).
  { intros clean value (h' & res & Hrun & Hext & Hres).
    exists h', res. split; [done|]. split.
    - intros l x. by apply extends_lookup.
    - destruct res as [out|e]; [|done]. destruct Hres as (Hlen & o & Ho & _).
      split; [by apply lookup_ge_None_2|]. split; [|by exists o].
      apply lookup_lt_Some in Hd. lia. }
  split; eapply G; [by apply Transform_runs|by apply TestTransform_runs].
Qed.

Lemma input_not_mutated_witness :
  leaves_store Transform.clean_dataframe_obj
    [text_table [rec (Some "  JOHN DOE  ") (Some "  JOHN@EXAMPLE.COM  ")]] 0%nat /\
  leaves_store TestTransform.clean_dataframe_obj
    [text_table [rec (Some "  JOHN DOE  ") (Some "  JOHN@EXAMPLE.COM  ")]] 0%nat.
Proof.
  apply (input_not_mutated
           [text_table [rec (Some "  JOHN DOE  ") (Some "  JOHN@EXAMPLE.COM  ")]] 0%nat
           (text_table [rec (Some "  JOHN DOE  ") (Some "  JOHN@EXAMPLE.COM  ")])).
  reflexivity.
Defined.

(** [test_original_dataframe_unchanged], run on the store. *)
Example original_dataframe_unchanged :
  let df := text_table [rec (Some "  JOHN DOE  ") (Some "  JOHN@EXAMPLE.COM  ")] in
  exists h',
    Transform.clean_dataframe_obj 0%nat [df] = Some (h', Ok 5%nat) /\
    h' !! 0%nat = Some df /\
    h' !! 5%nat = Some (text_table [mkRow 0 (Some "john doe") (Some "john@example.com") []]).
Proof. eexists. by vm_compute. Qed.

(** * Further properties *)

(** ** More on the records that are kept *)

Module KeptMore.

Lemma survivors_cons seen r rs :
  survivors seen (r :: rs)
  = match key r with
    | None => survivors seen rs
    | Some k => if bool_decide (k ∈ seen) then survivors seen rs
                else r :: survivors (k :: seen) rs
    end.
Proof.
  unfold key. simpl. destruct (email r) as [e|]; [|done]. by case_bool_decide.
Qed.

Lemma key_Some r k :
  key r = Some k <-> k ≠ "" /\ exists e, email r = Some e /\ canonical e = k.
Proof.
  unfold key. destruct (email r) as [e|].
  - case_bool_decide as E; split.
    + done.
    + intros (Hk & e' & [= <-] & <-). done.
    + intros [= <-]. eauto.
    + intros (_ & e' & [= <-] & <-). done.
  - split; [done|]. by intros (_ & e & ? & _).
Qed.

Lemma key_None r :
  key r = None <-> match email r with
                   | None => True
                   | Some e => Str.all_space e = true
                   end.
Proof.
  unfold key. destruct (email r) as [e|]; [|done].
  rewrite <- canonical_empty. by case_bool_decide.
Qed.

Lemma key_email r k : key r = Some k -> option_map canonical (email r) = Some k.
Proof. intros (_ & e & -> & <-)%key_Some. done. Qed.

Lemma survivors_keys seen rs :
  Forall (fun r => exists k, key r = Some k /\ k ∉ seen) (survivors seen rs).
Proof.
  revert seen. induction rs as [|r rs IH]; intros seen; [constructor|].
  rewrite survivors_cons. destruct (key r) as [k|] eqn:Ek; [|apply IH].
  case_bool_decide as Hs; [apply IH|].
  constructor; [by exists k|].
  eapply Forall_impl; [apply (IH (k :: seen))|].
  intros r' (k' & ? & Hn). exists k'. split; [done|].
  intros ?. apply Hn. by right.
Qed.

Lemma elem_of_survivors seen rs k :
  k ∈ omap key (survivors seen rs) <-> (k ∉ seen) /\ k ∈ omap key rs.
Proof.
  revert seen. induction rs as [|r rs IH]; intros seen.
  - simpl. split; [by intros ?%elem_of_nil|by intros [_ ?%elem_of_nil]].
  - rewrite survivors_cons. simpl. destruct (key r) as [k'|] eqn:Ek; [|apply IH].
    case_bool_decide as Hs.
    + rewrite IH, elem_of_cons. split.
      * intros [? ?]. split; [done|by right].
      * intros [Hn [->|?]]; done.
    + simpl. rewrite Ek. rewrite !elem_of_cons, IH, not_elem_of_cons. split.
      * intros [->|[[Hne Hn] Hin]]; (split; [done|]); [by left|by right].
      * intros [Hn [->|Hin]]; [by left|].
        destruct (decide (k = k')) as [->|Hne]; [by left|by right].
Qed.

Lemma survivors_keys_NoDup seen rs : NoDup (omap key (survivors seen rs)).
Proof.
  revert seen. induction rs as [|r rs IH]; intros seen; [constructor|].
  rewrite survivors_cons. destruct (key r) as [k|] eqn:Ek; [|apply IH].
  case_bool_decide as Hs; [apply IH|].
  simpl. rewrite Ek. constructor; [|apply IH].
  rewrite elem_of_survivors. intros [Hn _]. apply Hn. by left.
Qed.

Lemma omap_key_length l :
  Forall (fun r => is_Some (key r)) l -> List.length (omap key l) = List.length l.
Proof.
  induction 1 as [|r l [k Ek] _ IH]; simpl; [done|]. rewrite Ek. simpl. by f_equal.
Qed.

Lemma map_key_omap l :
  Forall (fun r => is_Some (key r)) l -> map key l = map Some (omap key l).
Proof.
  induction 1 as [|r l [k Ek] _ IH]; simpl; [done|]. rewrite Ek. simpl. by rewrite IH.
Qed.

Lemma survivors_is_Some seen rs :
  Forall (fun r => is_Some (key r)) (survivors seen rs).
Proof.
  eapply Forall_impl; [apply survivors_keys|]. intros r (k & Ek & _). by exists k.
Qed.

Lemma survivors_keys_length seen rs :
  List.length (omap key (survivors seen rs)) = List.length (survivors seen rs).
Proof. apply omap_key_length, survivors_is_Some. Qed.

(** Nothing is dropped exactly when every record has a key and the keys are
    pairwise different. *)
Lemma survivors_all seen rs :
  survivors seen rs = rs
  <-> Forall (fun r => exists k, key r = Some k /\ k ∉ seen) rs /\ NoDup (map key rs).
Proof.
  split.
  - intros E. split; [rewrite <- E; apply survivors_keys|].
    rewrite <- E, map_key_omap by apply survivors_is_Some.
    apply NoDup_fmap_2; [intros ?? [= ?]; done|apply survivors_keys_NoDup].
  - intros [F N]. revert seen F.
    induction rs as [|r rs IH]; intros seen F; [done|].
    apply Forall_cons in F as [(k & Ek & Hk) F]. simpl in N.
    apply NoDup_cons in N as [Hr N].
    rewrite survivors_cons, Ek. rewrite bool_decide_false by done.
    f_equal. apply IH; [done|].
    rewrite Forall_forall in F. rewrite Forall_forall. intros r' Hr'.
    destruct (F r' Hr') as (k' & Ek' & Hk'). exists k'. split; [done|].
    intros [->|?]%elem_of_cons; [|done].
    apply Hr. rewrite Ek, <- Ek'. apply list_elem_of_In, in_map. by apply list_elem_of_In.
Qed.

Lemma sublist_same_length {A} (l k : list A) :
  sublist l k -> List.length l = List.length k -> l = k.
Proof.
  induction 1 as [|x l k S IH|x l k S IH]; simpl; intros E; [done|..].
  - f_equal. apply IH. lia.
  - apply sublist_length in S. lia.
Qed.

Lemma survivors_nil seen rs :
  survivors seen rs = [] <-> Forall (fun r => forall k, key r = Some k -> k ∈ seen) rs.
Proof.
  revert seen. induction rs as [|r rs IH]; intros seen; [by split; [constructor|]|].
  rewrite survivors_cons, Forall_cons. destruct (key r) as [k|] eqn:Ek.
  - case_bool_decide as Hs.
    + rewrite IH. split; [|by intros [_ ?]]. intros F. split; [|done]. by intros ? [= <-].
    + split; [done|]. intros [H _]. destruct Hs. by apply H.
  - rewrite IH. split; [|by intros [_ ?]]. intros F. split; done.
Qed.

Lemma survivors_app seen l1 l2 :
  exists seen', survivors seen (l1 ++ l2) = survivors seen l1 ++ survivors seen' l2.
Proof.
  revert seen. induction l1 as [|r l1 IH]; intros seen; [by exists seen|].
  rewrite <- app_comm_cons, !survivors_cons.
  destruct (key r) as [k|]; [|apply IH].
  case_bool_decide; [apply IH|].
  destruct (IH (k :: seen)) as [seen' E]. exists seen'. by rewrite E.
Qed.

Lemma same_canonical_key r r' : same_canonical r r' -> key r = key r'.
Proof.
  intros (_ & E & _). unfold key.
  destruct (email r) as [e|], (email r') as [e'|]; try done.
  injection E as ->. done.
Qed.

Lemma same_canonical_normalise i r r' :
  same_canonical r r' ->
  mkRow i (name (normalise r)) (email (normalise r)) (extras (normalise r))
  = mkRow i (name (normalise r')) (email (normalise r')) (extras (normalise r')).
Proof. intros (En & Ee & Ex). simpl. by rewrite En, Ee, Ex. Qed.

Lemma survivors_same_canonical rs rs' :
  Forall2 same_canonical rs rs' ->
  forall seen i,
    pd.renumber i (map normalise (survivors seen rs))
    = pd.renumber i (map normalise (survivors seen rs')).
Proof.
  induction 1 as [|r r' rs rs' Hr _ IH]; intros seen i; [done|].
  rewrite !survivors_cons, <- (same_canonical_key r r' Hr).
  destruct (key r) as [k|]; [|apply IH].
  case_bool_decide; [apply IH|].
  cbn [map pd.renumber]. f_equal; [by apply same_canonical_normalise|apply IH].
Qed.

End KeptMore.

(** ** The variant of the tests on tables of texts *)

Lemma cleaned_all_missing (f : Row -> cell) rs :
  (forall r o, cleaned_from r o -> f r = None -> f o = None) ->
  Forall (fun r => f r = None) rs ->
  Forall (fun o => f o = None) (cleaned rs).
Proof.
  intros Hf F.
  eapply Forall2_Forall_r; [apply Kept.cleaned_from_survivors|].
  apply survivors_Forall. eapply Forall_impl; [exact F|].
  intros r Hr o Ho. by apply (Hf r o).
Qed.

(** X2. On a table in which a [float64] column holds missing values only,
    the variant of the tests returns, whatever the dtypes are: its guards
    keep [.str] away from such a column. What it returns is again a table
    in which a [float64] column holds missing values only. *)
Theorem guarded_returns_on_text_tables df :
  well_typed df ->
  exists out, TestTransform.clean_dataframe df = Ok out /\ well_typed out.
Proof.
  intros W. destruct (TestTransform_returns df W) as [out H].
  exists out. split; [done|].
  pose proof H as H'. rewrite TestTransform_clean_dataframe_eq in H'.
  destruct (rows df) as [|r0 rs0] eqn:Er; [by injection H' as <-|].
  rewrite <- Er in H'. clear r0 rs0 Er. destruct W as [Wn We].
  destruct (if some_name df then name_dtype df else object); [|done].
  destruct (if some_email df then email_dtype df else object); [|done].
  injection H' as <-. split; cbn [name_dtype email_dtype rows]; intros Hd.
  - destruct (some_name df) eqn:Sn; [done|].
    apply (cleaned_all_missing name); [by intros r o (-> & _) ->|].
    by apply Wn.
  - destruct (some_email df) eqn:Se; [done|].
    apply (cleaned_all_missing email); [by intros r o (_ & -> & _) ->|].
    by apply We.
Qed.

Lemma guarded_returns_on_text_tables_witness :
  exists out, TestTransform.clean_dataframe blank_names_table = Ok out /\ well_typed out.
Proof.
  apply (guarded_returns_on_text_tables blank_names_table).
  split.
  - intros _. repeat constructor.
  - intros H. discriminate H.
Defined.

(** ** The shape of the output *)

Lemma strip_canonical s : Str.strip (canonical s) = canonical s.
Proof.
  unfold canonical. by rewrite <- StrFacts.lower_strip, StrFacts.strip_idem.
Qed.

Lemma lower_canonical s : Str.lower (canonical s) = canonical s.
Proof. unfold canonical. apply StrFacts.lower_idem. Qed.

(** X3. In the output of either variant every name and every email is its
    own stripped form and its own lowercased form: no white space at either
    end, no capital letter. *)
Theorem output_fields_stripped_and_lowercased df out :
  Transform.clean_dataframe df = Ok out \/ TestTransform.clean_dataframe df = Ok out ->
  Forall (fun o =>
            (forall e, email o = Some e -> Str.strip e = e /\ Str.lower e = e) /\
            (forall n, name o = Some n -> Str.strip n = n /\ Str.lower n = n))
    (rows out).
Proof.
  intros Hout. rewrite (rows_of_output df out Hout).
  eapply Forall2_Forall_r; [apply Kept.cleaned_from_survivors|].
  apply Forall_forall. intros r _ o (Hn & He & _). split.
  - intros e. rewrite He. destruct (email r); [|done].
    intros [= <-]. split; [apply strip_canonical|apply lower_canonical].
  - intros n. rewrite Hn. destruct (name r); [|done].
    intros [= <-]. split; [apply strip_canonical|apply lower_canonical].
Qed.

Lemma output_fields_stripped_and_lowercased_witness :
  Forall (fun o =>
            (forall e, email o = Some e -> Str.strip e = e /\ Str.lower e = e) /\
            (forall n, name o = Some n -> Str.strip n = n /\ Str.lower n = n))
    (rows (text_table [mkRow 0 (Some "john doe") (Some "john@example.com") []])).
Proof.
  apply (output_fields_stripped_and_lowercased
           (text_table [rec (Some "  John Doe ") (Some " JOHN@example.com")])).
  left. vm_compute. reflexivity.
Defined.

(** X4. When every record has an email that is not blank and no two records
    have the same canonical email, nothing is dropped: the output has the
    cleaned form of every input record, at the same position. *)
Theorem nothing_dropped_when_emails_distinct df out :
  Transform.clean_dataframe df = Ok out \/ TestTransform.clean_dataframe df = Ok out ->
  Forall (fun r => exists e, email r = Some e /\ Str.all_space e = false) (rows df) ->
  NoDup (map (fun r => option_map canonical (email r)) (rows df)) ->
  Forall2 cleaned_from (rows df) (rows out).
Proof.
  intros Hout F N. rewrite (rows_of_output df out Hout).
  assert (Fk : Forall (fun r => key r = option_map canonical (email r) /\
                               exists k, key r = Some k /\ k ∉ @nil string) (rows df)).
  { eapply Forall_impl; [exact F|]. intros r (e & Ee & Hs).
    assert (canonical e ≠ "") by (rewrite canonical_empty; congruence).
    unfold key. rewrite Ee. rewrite bool_decide_false by done.
    split; [done|]. exists (canonical e). split; [done|apply not_elem_of_nil]. }
  assert (E : survivors [] (rows df) = rows df).
  { apply KeptMore.survivors_all. split.
    - eapply Forall_impl; [exact Fk|]. by intros r [_ ?].
    - erewrite map_ext_Forall; [exact N|].
      eapply Forall_impl; [exact Fk|]. by intros r [? _]. }
  pose proof (Kept.cleaned_from_survivors (rows df)) as C. by rewrite E in C.
Qed.

Lemma nothing_dropped_when_emails_distinct_witness :
  Forall2 cleaned_from
    (rows (text_table [rec (Some " John Doe ") (Some " JOHN@EXAMPLE.COM ");
                       rec (Some "Jane") (Some "jane@example.com")]))
    (rows (text_table [mkRow 0 (Some "john doe") (Some "john@example.com") [];
                       mkRow 1 (Some "jane") (Some "jane@example.com") []])).
Proof.
  apply (nothing_dropped_when_emails_distinct
           (text_table [rec (Some " John Doe ") (Some " JOHN@EXAMPLE.COM ");
                        rec (Some "Jane") (Some "jane@example.com")])).
  - left. vm_compute. reflexivity.
  - repeat constructor; eexists; (split; [reflexivity|vm_compute; reflexivity]).
  - vm_compute. repeat constructor; rewrite ?elem_of_cons, ?elem_of_nil;
      intros H; repeat destruct H as [H|H]; try discriminate H; exact H.
Defined.

(** X5. The output is as long as the input exactly when every record has a
    key (an email that is not blank) and the keys are pairwise different. *)
Theorem same_length_iff_keys_distinct df out :
  Transform.clean_dataframe df = Ok out \/ TestTransform.clean_dataframe df = Ok out ->
  List.length (rows out) = List.length (rows df)
  <-> Forall (fun r => is_Some (key r)) (rows df) /\ NoDup (map key (rows df)).
Proof.
  intros Hout. rewrite (rows_of_output df out Hout). unfold cleaned.
  rewrite pdFacts.renumber_length, length_map.
  transitivity (survivors [] (rows df) = rows df).
  - split; [|by intros ->].
    apply KeptMore.sublist_same_length, Kept.survivors_sublist.
  - rewrite KeptMore.survivors_all. split; intros [F N]; (split; [|done]).
    + eapply Forall_impl; [exact F|]. intros r (k & ? & _). by exists k.
    + eapply Forall_impl; [exact F|]. intros r [k ?]. exists k.
      split; [done|apply not_elem_of_nil].
Qed.

Lemma same_length_iff_keys_distinct_witness :
  (List.length (rows (text_table [mkRow 0 (Some "a") (Some "x@y.com") [];
                                  mkRow 1 (Some "c") (Some "c@y.com") []]))
   = List.length (rows (text_table [rec (Some "A") (Some "x@y.com");
                                    rec (Some "B") (Some " X@Y.COM");
                                    rec (Some "C") (Some "c@y.com")]))
   <-> Forall (fun r => is_Some (key r))
         (rows (text_table [rec (Some "A") (Some "x@y.com");
                            rec (Some "B") (Some " X@Y.COM");
                            rec (Some "C") (Some "c@y.com")])) /\
       NoDup (map key (rows (text_table [rec (Some "A") (Some "x@y.com");
                                         rec (Some "B") (Some " X@Y.COM");
                                         rec (Some "C") (Some "c@y.com")])))) /\
  (List.length (rows (text_table [mkRow 0 (Some "a") (Some "x@y.com") [];
                                  mkRow 1 (Some "b") (Some "b@y.com") [];
                                  mkRow 2 (Some "c") (Some "c@y.com") []]))
   = List.length (rows (text_table [rec (Some "A") (Some "x@y.com");
                                    rec (Some "B") (Some " B@Y.COM");
                                    rec (Some "C") (Some "c@y.com")]))
   <-> Forall (fun r => is_Some (key r))
         (rows (text_table [rec (Some "A") (Some "x@y.com");
                            rec (Some "B") (Some " B@Y.COM");
                            rec (Some "C") (Some "c@y.com")])) /\
       NoDup (map key (rows (text_table [rec (Some "A") (Some "x@y.com");
                                         rec (Some "B") (Some " B@Y.COM");
                                         rec (Some "C") (Some "c@y.com")])))).
Proof.
  split.
  - apply (same_length_iff_keys_distinct
             (text_table [rec (Some "A") (Some "x@y.com"); rec (Some "B") (Some " X@Y.COM");
                          rec (Some "C") (Some "c@y.com")])).
    left. vm_compute. reflexivity.
  - apply (same_length_iff_keys_distinct
             (text_table [rec (Some "A") (Some "x@y.com"); rec (Some "B") (Some " B@Y.COM");
                          rec (Some "C") (Some "c@y.com")])).
    left. vm_compute. reflexivity.
Defined.

(** The two tables of the witness: with a duplicate a record is dropped and
    the keys are not pairwise different; without one, neither. *)
Example same_length_examples :
  ~ NoDup (map key (rows (text_table [rec (Some "A") (Some "x@y.com");
                                      rec (Some "B") (Some " X@Y.COM");
                                      rec (Some "C") (Some "c@y.com")]))) /\
  NoDup (map key (rows (text_table [rec (Some "A") (Some "x@y.com");
                                    rec (Some "B") (Some " B@Y.COM");
                                    rec (Some "C") (Some "c@y.com")]))).
Proof.
  split.
  - intros [H _]%NoDup_cons. apply H. vm_compute. by left.
  - vm_compute. repeat constructor; rewrite ?elem_of_cons, ?elem_of_nil;
      intros H; repeat destruct H as [H|H]; try discriminate H; exact H.
Qed.

(** X6. The output has no row exactly when every email of the input is
    missing or made of white space only. *)
Theorem output_empty_iff_all_blank df out :
  Transform.clean_dataframe df = Ok out \/ TestTransform.clean_dataframe df = Ok out ->
  rows out = []
  <-> Forall (fun r => match email r with
                       | None => True
                       | Some e => Str.all_space e = true
                       end) (rows df).
Proof.
  intros Hout. rewrite (rows_of_output df out Hout).
  transitivity (survivors [] (rows df) = []).
  - unfold cleaned. destruct (survivors [] (rows df)); simpl; split; done.
  - rewrite KeptMore.survivors_nil. apply Forall_iff. intros r.
    rewrite <- KeptMore.key_None. split.
    + intros H. destruct (key r) as [k|]; [|done].
      destruct (proj1 (elem_of_nil k) (H k eq_refl)).
    + by intros ->.
Qed.

Lemma output_empty_iff_all_blank_witness :
  rows (text_table []) = []
  <-> Forall (fun r => match email r with
                       | None => True
                       | Some e => Str.all_space e = true
                       end)
        (rows (text_table [rec (Some "A") None; rec (Some "B") (Some "  ")])).
Proof.
  apply (output_empty_iff_all_blank
           (text_table [rec (Some "A") None; rec (Some "B") (Some "  ")])).
  left. vm_compute. reflexivity.
Defined.

Lemma cleaned_emails rs :
  map email (cleaned rs) = map Some (omap key (survivors [] rs)).
Proof.
  rewrite Kept.cleaned_email, <- KeptMore.map_key_omap by apply KeptMore.survivors_is_Some.
  apply map_ext_Forall.
  eapply Forall_impl; [apply (KeptMore.survivors_keys [] rs)|].
  intros r (k & Ek & _). rewrite Ek. by apply KeptMore.key_email.
Qed.

(** X7. The emails of the output are exactly the canonical forms, when not
    empty, of the emails of the input: none is lost and none is made up. *)
Theorem output_emails_are_the_input_emails df out k :
  Transform.clean_dataframe df = Ok out \/ TestTransform.clean_dataframe df = Ok out ->
  (exists o, o ∈ rows out /\ email o = Some k)
  <-> k ≠ "" /\ exists r e, r ∈ rows df /\ email r = Some e /\ canonical e = k.
Proof.
  intros Hout. rewrite (rows_of_output df out Hout).
  transitivity (Some k ∈ map email (cleaned (rows df))).
  { split.
    - intros (o & Ho%list_elem_of_In & Eo). apply list_elem_of_In, in_map_iff. by exists o.
    - intros (o & Eo & Ho%list_elem_of_In)%list_elem_of_In%in_map_iff. by exists o. }
  rewrite cleaned_emails.
  transitivity (k ∈ omap key (survivors [] (rows df))).
  { split.
    - intros (k' & [= ->] & Hk)%list_elem_of_In%in_map_iff. by apply list_elem_of_In.
    - intros Hk%list_elem_of_In. apply list_elem_of_In, in_map_iff. by exists k. }
  rewrite KeptMore.elem_of_survivors, list_elem_of_omap. split.
  - intros (_ & r & Hr & (Hk & e & Ee & Ec)%KeptMore.key_Some).
    split; [done|]. by exists r, e.
  - intros (Hk & r & e & Hr & Ee & Ec). split; [apply not_elem_of_nil|].
    exists r. split; [done|]. apply KeptMore.key_Some. split; [done|]. by exists e.
Qed.

Lemma output_emails_are_the_input_emails_witness :
  (exists o, o ∈ rows (text_table [mkRow 0 (Some "a") (Some "x@y.com") []]) /\
             email o = Some "x@y.com")
  <-> "x@y.com" ≠ "" /\
      exists r e, r ∈ rows (text_table [rec (Some "A") (Some " X@y.com");
                                        rec (Some "B") (Some "")]) /\
                  email r = Some e /\ canonical e = "x@y.com".
Proof.
  apply (output_emails_are_the_input_emails
           (text_table [rec (Some "A") (Some " X@y.com"); rec (Some "B") (Some "")])).
  left. vm_compute. reflexivity.
Defined.

(** X8. The output has as many rows as the input has different keys, that
    is, different canonical emails that are not empty. *)
Theorem output_length_is_number_of_keys df out :
  Transform.clean_dataframe df = Ok out \/ TestTransform.clean_dataframe df = Ok out ->
  List.length (rows out) = List.length (remove_dups (omap key (rows df))).
Proof.
  intros Hout. rewrite (rows_of_output df out Hout). unfold cleaned.
  rewrite pdFacts.renumber_length, length_map, <- KeptMore.survivors_keys_length.
  apply Permutation_length, NoDup_Permutation.
  - apply KeptMore.survivors_keys_NoDup.
  - apply NoDup_remove_dups.
  - intros k. rewrite KeptMore.elem_of_survivors, elem_of_remove_dups.
    split; [by intros [_ ?]|]. intros ?. split; [apply not_elem_of_nil|done].
Qed.

Lemma output_length_is_number_of_keys_witness :
  List.length (rows (text_table [mkRow 0 (Some "a") (Some "x@y.com") []]))
  = List.length
      (remove_dups
         (omap key (rows (text_table [rec (Some "A") (Some "x@y.com");
                                      rec (Some "B") (Some " X@Y.COM");
                                      rec (Some "C") None])))).
Proof.
  apply (output_length_is_number_of_keys
           (text_table [rec (Some "A") (Some "x@y.com"); rec (Some "B") (Some " X@Y.COM");
                        rec (Some "C") None])).
  left. vm_compute. reflexivity.
Defined.

Lemma cleaned_same_canonical rs rs' :
  Forall2 same_canonical rs rs' -> cleaned rs = cleaned rs'.
Proof. intros H. by apply KeptMore.survivors_same_canonical. Qed.

Lemma any_notna_same_canonical (f : Row -> cell) d rs rs' :
  Forall2 (fun r r' => option_map canonical (f r) = option_map canonical (f r')) rs rs' ->
  pd.any (pd.notna (mkSeries d (map f rs))) = pd.any (pd.notna (mkSeries d (map f rs'))).
Proof.
  unfold pd.any, pd.notna. cbn [values].
  induction 1 as [|r r' rs rs' E _ IH]; simpl; [done|]. rewrite IH. f_equal.
  unfold id. destruct (f r), (f r'); done.
Qed.

(** X9. The output depends on the input only through the canonical names
    and emails and the other cells: two tables of the same dtypes whose
    records agree on these, position by position, are cleaned to the same
    table by either variant; the index labels, the case and the outer white
    space of the input do not show. *)
Theorem output_depends_on_canonical_fields df df' :
  name_dtype df = name_dtype df' ->
  email_dtype df = email_dtype df' ->
  Forall2 same_canonical (rows df) (rows df') ->
  Transform.clean_dataframe df = Transform.clean_dataframe df' /\
  TestTransform.clean_dataframe df = TestTransform.clean_dataframe df'.
Proof.
  intros En Ee F. split.
  - rewrite !Transform_clean_dataframe_eq, En, Ee. by rewrite (cleaned_same_canonical _ _ F).
  - rewrite !TestTransform_clean_dataframe_eq.
    assert (Sn : some_name df = some_name df').
    { unfold some_name, pd.getitem. rewrite En.
      apply any_notna_same_canonical. eapply Forall2_impl; [exact F|]. by intros ?? [? _]. }
    assert (Se : some_email df = some_email df').
    { unfold some_email, pd.getitem. rewrite Ee.
      apply any_notna_same_canonical. eapply Forall2_impl; [exact F|]. by intros ?? (_ & ? & _). }
    rewrite Sn, Se, En, Ee, (cleaned_same_canonical _ _ F).
    destruct df as [dn de rs], df' as [dn' de' rs']. simpl in *. subst dn' de'.
    by destruct F.
Qed.

Lemma output_depends_on_canonical_fields_witness :
  Transform.clean_dataframe
    (text_table [mkRow 7 (Some " Ann ") (Some "A@X.com") [Some "k"]])
  = Transform.clean_dataframe
      (text_table [mkRow 0 (Some "ANN") (Some " a@x.COM ") [Some "k"]]) /\
  TestTransform.clean_dataframe
    (text_table [mkRow 7 (Some " Ann ") (Some "A@X.com") [Some "k"]])
  = TestTransform.clean_dataframe
      (text_table [mkRow 0 (Some "ANN") (Some " a@x.COM ") [Some "k"]]).
Proof.
  apply (output_depends_on_canonical_fields
           (text_table [mkRow 7 (Some " Ann ") (Some "A@X.com") [Some "k"]])
           (text_table [mkRow 0 (Some "ANN") (Some " a@x.COM ") [Some "k"]])).
  - reflexivity.
  - reflexivity.
  - repeat constructor.
Defined.

Lemma renumber_app i rs rs' :
  pd.renumber i (rs ++ rs')
  = pd.renumber i rs ++ pd.renumber (i + Z.of_nat (List.length rs)) rs'.
Proof.
  revert i. induction rs as [|r rs IH]; intros i; simpl.
  - f_equal. lia.
  - rewrite IH. do 3 f_equal. lia.
Qed.

(** X10. Records appended to the input leave the output rows of the earlier
    records as they are, labels included: the output of the longer table
    begins with the output of the shorter one. *)
Theorem appended_records_extend_the_output df1 out1 df12 out12 l2 :
  Transform.clean_dataframe df1 = Ok out1 \/ TestTransform.clean_dataframe df1 = Ok out1 ->
  Transform.clean_dataframe df12 = Ok out12 \/ TestTransform.clean_dataframe df12 = Ok out12 ->
  rows df12 = rows df1 ++ l2 ->
  exists tail, rows out12 = rows out1 ++ tail.
Proof.
  intros H1 H12 E.
  rewrite (rows_of_output _ _ H1), (rows_of_output _ _ H12), E. unfold cleaned.
  destruct (KeptMore.survivors_app [] (rows df1) l2) as [seen' ->].
  rewrite map_app, renumber_app. eauto.
Qed.

Lemma appended_records_extend_the_output_witness :
  exists tail,
    rows (text_table [mkRow 0 (Some "a") (Some "x@y.com") [];
                      mkRow 1 (Some "c") (Some "c@y.com") []])
    = rows (text_table [mkRow 0 (Some "a") (Some "x@y.com") []]) ++ tail.
Proof.
  apply (appended_records_extend_the_output
           (text_table [rec (Some "A") (Some "x@y.com")])
           (text_table [mkRow 0 (Some "a") (Some "x@y.com") []])
           (text_table [rec (Some "A") (Some "x@y.com"); rec (Some "B") (Some "X@Y.com");
                        rec (Some "C") (Some "c@y.com")])
           (text_table [mkRow 0 (Some "a") (Some "x@y.com") [];
                        mkRow 1 (Some "c") (Some "c@y.com") []])
           [rec (Some "B") (Some "X@Y.com"); rec (Some "C") (Some "c@y.com")]).
  - left. vm_compute. reflexivity.
  - left. vm_compute. reflexivity.
  - reflexivity.
Defined.

(** ** The script *)

Module ScriptFacts.

Lemma sum_nonneg mask : (0 <= pdcount.sum mask)%Z.
Proof. induction mask as [|[] m IH]; simpl; lia. Qed.

Lemma sum_le_length mask : (pdcount.sum mask <= Z.of_nat (List.length mask))%Z.
Proof. induction mask as [|[] m IH]; simpl; lia. Qed.

(** Records with a missing or an empty email are not kept. *)
Lemma null_and_empty_dropped seen rs :
  (pdcount.sum (map (fun v : cell => bool_decide (v = None)) (map email rs))
   + pdcount.sum (map (fun v : cell => bool_decide (v = Some "")) (map email rs))
   + Z.of_nat (List.length (survivors seen rs))
   <= Z.of_nat (List.length rs))%Z.
Proof.
  revert seen. induction rs as [|r rs IH]; intros seen; [simpl; lia|].
  cbn [map pdcount.sum survivors].
  destruct (email r) as [e|] eqn:Er.
  - rewrite bool_decide_false by done.
    destruct (decide (e = "")) as [->|Hne].
    + rewrite bool_decide_true by done.
      rewrite (bool_decide_true (canonical "" = "")) by done.
      specialize (IH seen). cbn [List.length]. lia.
    + rewrite bool_decide_false by congruence.
      repeat case_bool_decide; cbn [List.length];
        first [specialize (IH seen); lia | specialize (IH (canonical e :: seen)); lia].
  - rewrite bool_decide_true by done. rewrite bool_decide_false by done.
    specialize (IH seen). cbn [List.length]. lia.
Qed.

(** A record that is kept is not counted as a duplicate. *)
Lemma duplicates_dropped met seen rs :
  (forall k, Some k ∈ met -> k = "" \/ k ∈ seen) ->
  (pdcount.sum (pd.duplicated_from met (map (option_map canonical) (map email rs)))
   + Z.of_nat (List.length (survivors seen rs))
   <= Z.of_nat (List.length rs))%Z.
Proof.
  revert met seen. induction rs as [|r rs IH]; intros met seen Hmet; [simpl; lia|].
  cbn [map pd.duplicated_from survivors].
  destruct (email r) as [e|] eqn:Er; cbn [option_map].
  - destruct (decide (canonical e = "")) as [E|E].
    + rewrite (bool_decide_true (canonical e = "")) by done.
      case_bool_decide; cbn [pdcount.sum List.length].
      * specialize (IH met seen Hmet). unfold cell in *. lia.
      * assert (Hmet' : forall k, Some k ∈ Some (canonical e) :: met -> k = "" \/ k ∈ seen).
        { intros k [[= ->]|?]%elem_of_cons; [by left|by apply Hmet]. }
        specialize (IH _ seen Hmet'). unfold cell in *. lia.
    + rewrite (bool_decide_false (canonical e = "")) by done.
      destruct (decide (canonical e ∈ seen)) as [Hs|Hs].
      * rewrite (bool_decide_true (canonical e ∈ seen)) by done.
        case_bool_decide; cbn [pdcount.sum List.length].
        -- specialize (IH met seen Hmet). unfold cell in *. lia.
        -- assert (Hmet' : forall k, Some k ∈ Some (canonical e) :: met -> k = "" \/ k ∈ seen).
           { intros k [[= ->]|?]%elem_of_cons; [by right|by apply Hmet]. }
           specialize (IH _ seen Hmet'). unfold cell in *. lia.
      * rewrite (bool_decide_false (canonical e ∈ seen)) by done.
        rewrite bool_decide_false by (intros [?|?]%Hmet; done).
        cbn [pdcount.sum List.length].
        assert (Hmet' : forall k, Some k ∈ Some (canonical e) :: met ->
                                k = "" \/ k ∈ canonical e :: seen).
        { intros k [[= ->]|[?|?]%Hmet]%elem_of_cons; [right; by left|by left|right; by right]. }
        specialize (IH _ _ Hmet'). unfold cell in *. lia.
  - case_bool_decide; cbn [pdcount.sum List.length].
    + specialize (IH met seen Hmet). unfold cell in *. lia.
    + assert (Hmet' : forall k, Some k ∈ None :: met -> k = "" \/ k ∈ seen).
      { intros k [?|?]%elem_of_cons; [done|by apply Hmet]. }
      specialize (IH _ seen Hmet'). unfold cell in *. lia.
Qed.

(** When every record has a key, the duplicates are exactly the records
    that are not kept. *)
Lemma duplicates_exact met seen rs :
  (forall k, Some k ∈ met <-> k ∈ seen) ->
  Forall (fun r => is_Some (key r)) rs ->
  (pdcount.sum (pd.duplicated_from met (map (option_map canonical) (map email rs)))
   + Z.of_nat (List.length (survivors seen rs))
   = Z.of_nat (List.length rs))%Z.
Proof.
  intros Hmet F. revert met seen Hmet.
  induction F as [|r rs [k Ek] _ IH]; intros met seen Hmet; [done|].
  rewrite KeptMore.survivors_cons, Ek.
  cbn [map pd.duplicated_from]. rewrite (KeptMore.key_email r k Ek).
  destruct (decide (k ∈ seen)) as [Hs|Hs].
  - rewrite (bool_decide_true (k ∈ seen)) by done.
    rewrite bool_decide_true by (by apply Hmet).
    cbn [pdcount.sum List.length]. specialize (IH met seen Hmet). unfold cell in *. lia.
  - rewrite (bool_decide_false (k ∈ seen)) by done.
    rewrite bool_decide_false by (by rewrite Hmet).
    cbn [pdcount.sum List.length].
    assert (Hmet' : forall k', Some k' ∈ Some k :: met <-> k' ∈ k :: seen).
    { intros k'. rewrite !elem_of_cons, Hmet. split; intros [?|?]; auto; left; congruence. }
    specialize (IH _ _ Hmet'). unfold cell in *. lia.
Qed.

Lemma no_null_no_empty rs :
  Forall (fun r => exists e, email r = Some e /\ Str.all_space e = false) rs ->
  pdcount.sum (map (fun v : cell => bool_decide (v = None)) (map email rs)) = 0%Z /\
  pdcount.sum (map (fun v : cell => bool_decide (v = Some "")) (map email rs)) = 0%Z.
Proof.
  induction 1 as [|r rs (e & Ee & Hs) _ [IH1 IH2]]; simpl; [done|].
  rewrite Ee, IH1, IH2. rewrite bool_decide_false by done.
  rewrite bool_decide_false; [done|]. by intros [= ->].
Qed.

Lemma duplicates_count_eq messy_df :
  email_dtype messy_df = object ->
  Script.duplicates_count messy_df
  = Ok (pdcount.sum (pd.duplicated_from []
          (map (option_map canonical) (map email (rows messy_df))))).
Proof.
  intros E. unfold Script.duplicates_count. rewrite Rows.str_chain.
  unfold pd.getitem. cbn [sdtype values]. by rewrite E.
Qed.

Lemma clean_returns messy_df cleaned_df :
  Transform.clean_dataframe messy_df = Ok cleaned_df ->
  email_dtype messy_df = object /\ rows cleaned_df = cleaned (rows messy_df).
Proof.
  rewrite Transform_clean_dataframe_eq.
  destruct (name_dtype messy_df), (email_dtype messy_df); try done. by intros [= <-].
Qed.

Lemma cleaned_length rs : List.length (cleaned rs) = List.length (survivors [] rs).
Proof. unfold cleaned. by rewrite pdFacts.renumber_length, length_map. Qed.

End ScriptFacts.

(** X11. When [clean_dataframe] raises, the script ends with that exception
    and has not called [to_excel]: nothing is written. *)
Theorem script_writes_nothing_on_failure messy_df e :
  Transform.clean_dataframe messy_df = Raise e ->
  snd (Script.script messy_df) = Raise e /\
  Script.written (fst (Script.script messy_df)) = [].
Proof.
  intros H. unfold Script.script.
  cbn [mbind Script.IO_bind Script.emit Script.call]. rewrite H. by split.
Qed.

Lemma script_writes_nothing_on_failure_witness :
  snd (Script.script blank_names_table) = Raise AttributeError /\
  Script.written (fst (Script.script blank_names_table)) = [].
Proof.
  apply (script_writes_nothing_on_failure blank_names_table AttributeError).
  reflexivity.
Defined.

(** X12. When [clean_dataframe] returns, the script runs to its end without
    exception, the later use of [.str] included, and calls [to_excel] once:
    on the table [clean_dataframe] returned, to [output_file], without the
    index, on the sheet 'Cleaned Data'. *)
Theorem script_writes_the_cleaned_table messy_df cleaned_df :
  Transform.clean_dataframe messy_df = Ok cleaned_df ->
  snd (Script.script messy_df) = Ok tt /\
  Script.written (fst (Script.script messy_df))
  = [Script.to_excel cleaned_df Script.output_file false "Cleaned Data"].
Proof.
  intros H. destruct (ScriptFacts.clean_returns _ _ H) as [Ee _].
  unfold Script.script.
  cbn [mbind Script.IO_bind Script.emit Script.call].
  rewrite H, (ScriptFacts.duplicates_count_eq _ Ee). by split.
Qed.

Lemma script_writes_the_cleaned_table_witness :
  snd (Script.script (text_table [rec (Some "A") (Some "x@y.com")])) = Ok tt /\
  Script.written (fst (Script.script (text_table [rec (Some "A") (Some "x@y.com")])))
  = [Script.to_excel (text_table [mkRow 0 (Some "a") (Some "x@y.com") []])
       Script.output_file false "Cleaned Data"].
Proof.
  apply (script_writes_the_cleaned_table (text_table [rec (Some "A") (Some "x@y.com")])).
  vm_compute. reflexivity.
Defined.

(** X13. The counts the script prints are consistent with the rows that
    were removed: 'Rows removed' is not negative, the rows with a null and
    with an empty email together are at most the rows removed, and so is
    the number of duplicate emails. *)
Theorem script_counts_bounded messy_df cleaned_df :
  Transform.clean_dataframe messy_df = Ok cleaned_df ->
  (0 <= Script.rows_removed messy_df cleaned_df /\
   0 <= Script.null_emails messy_df /\
   0 <= Script.empty_emails messy_df /\
   Script.null_emails messy_df + Script.empty_emails messy_df
   <= Script.rows_removed messy_df cleaned_df /\
   exists n, Script.duplicates_count messy_df = Ok n /\
             0 <= n <= Script.rows_removed messy_df cleaned_df)%Z.
Proof.
  intros H. destruct (ScriptFacts.clean_returns _ _ H) as [Ee Er].
  unfold Script.rows_removed, Script.null_emails, Script.empty_emails, pd.len.
  unfold pdcount.isna, pdcount.eq, pd.getitem. cbn [values].
  rewrite Er, ScriptFacts.cleaned_length, (ScriptFacts.duplicates_count_eq _ Ee).
  pose proof (ScriptFacts.null_and_empty_dropped [] (rows messy_df)) as H1.
  pose proof (ScriptFacts.duplicates_dropped [] [] (rows messy_df)) as H2.
  pose proof (ScriptFacts.sum_nonneg
                (map (fun v : cell => bool_decide (v = None)) (map email (rows messy_df)))).
  pose proof (ScriptFacts.sum_nonneg
                (map (fun v : cell => bool_decide (v = Some "")) (map email (rows messy_df)))).
  pose proof (ScriptFacts.sum_nonneg
                (pd.duplicated_from [] (map (option_map canonical)
                                          (map email (rows messy_df))))).
  repeat split; try lia.
  eexists. split; [reflexivity|].
  assert (forall k : string, Some k ∈ @nil cell -> k = "" \/ k ∈ @nil string)
    by (by intros k ?%elem_of_nil).
  specialize (H2 ltac:(done)). lia.
Qed.

Lemma script_counts_bounded_witness :
  (0 <= Script.rows_removed
          (text_table [rec (Some "A") (Some "x@y.com"); rec (Some "B") (Some " X@Y.COM");
                       rec None None; rec None (Some "")])
          (text_table [mkRow 0 (Some "a") (Some "x@y.com") []]) /\
   0 <= Script.null_emails
          (text_table [rec (Some "A") (Some "x@y.com"); rec (Some "B") (Some " X@Y.COM");
                       rec None None; rec None (Some "")]) /\
   0 <= Script.empty_emails
          (text_table [rec (Some "A") (Some "x@y.com"); rec (Some "B") (Some " X@Y.COM");
                       rec None None; rec None (Some "")]) /\
   Script.null_emails
     (text_table [rec (Some "A") (Some "x@y.com"); rec (Some "B") (Some " X@Y.COM");
                  rec None None; rec None (Some "")])
   + Script.empty_emails
       (text_table [rec (Some "A") (Some "x@y.com"); rec (Some "B") (Some " X@Y.COM");
                    rec None None; rec None (Some "")])
   <= Script.rows_removed
        (text_table [rec (Some "A") (Some "x@y.com"); rec (Some "B") (Some " X@Y.COM");
                     rec None None; rec None (Some "")])
        (text_table [mkRow 0 (Some "a") (Some "x@y.com") []]) /\
   exists n,
     Script.duplicates_count
       (text_table [rec (Some "A") (Some "x@y.com"); rec (Some "B") (Some " X@Y.COM");
                    rec None None; rec None (Some "")]) = Ok n /\
     0 <= n <= Script.rows_removed
                 (text_table [rec (Some "A") (Some "x@y.com"); rec (Some "B") (Some " X@Y.COM");
                              rec None None; rec None (Some "")])
                 (text_table [mkRow 0 (Some "a") (Some "x@y.com") []]))%Z.
Proof.
  apply (script_counts_bounded
           (text_table [rec (Some "A") (Some "x@y.com"); rec (Some "B") (Some " X@Y.COM");
                        rec None None; rec None (Some "")])).
  vm_compute. reflexivity.
Defined.

(** X14. On a table in which every email is a text that is not blank, the
    script counts no null and no empty email, and the number of duplicate
    emails it prints is the number of rows removed. *)
Theorem script_counts_exact_without_blanks messy_df cleaned_df :
  Transform.clean_dataframe messy_df = Ok cleaned_df ->
  Forall (fun r => exists e, email r = Some e /\ Str.all_space e = false) (rows messy_df) ->
  Script.null_emails messy_df = 0%Z /\
  Script.empty_emails messy_df = 0%Z /\
  Script.duplicates_count messy_df = Ok (Script.rows_removed messy_df cleaned_df).
Proof.
  intros H F. destruct (ScriptFacts.clean_returns _ _ H) as [Ee Er].
  unfold Script.rows_removed, Script.null_emails, Script.empty_emails, pd.len.
  unfold pdcount.isna, pdcount.eq, pd.getitem. cbn [values].
  rewrite Er, ScriptFacts.cleaned_length, (ScriptFacts.duplicates_count_eq _ Ee).
  assert (Fk : Forall (fun r => is_Some (key r)) (rows messy_df)).
  { eapply Forall_impl; [exact F|]. intros r (e & Ee' & Hs).
    exists (canonical e). apply KeptMore.key_Some. split; [|by exists e].
    rewrite canonical_empty. congruence. }
  pose proof (ScriptFacts.duplicates_exact [] [] (rows messy_df)) as H2.
  destruct (ScriptFacts.no_null_no_empty _ F) as [N0 E0].
  split; [done|]. split; [done|].
  f_equal. rewrite <- H2; [lia| |done].
  intros k. split; by intros ?%elem_of_nil.
Qed.

Lemma script_counts_exact_without_blanks_witness :
  Script.null_emails
    (text_table [rec (Some "A") (Some "x@y.com"); rec (Some "B") (Some " X@Y.COM")]) = 0%Z /\
  Script.empty_emails
    (text_table [rec (Some "A") (Some "x@y.com"); rec (Some "B") (Some " X@Y.COM")]) = 0%Z /\
  Script.duplicates_count
    (text_table [rec (Some "A") (Some "x@y.com"); rec (Some "B") (Some " X@Y.COM")])
  = Ok (Script.rows_removed
          (text_table [rec (Some "A") (Some "x@y.com"); rec (Some "B") (Some " X@Y.COM")])
          (text_table [mkRow 0 (Some "a") (Some "x@y.com") []])).
Proof.
  apply (script_counts_exact_without_blanks
           (text_table [rec (Some "A") (Some "x@y.com"); rec (Some "B") (Some " X@Y.COM")])).
  - vm_compute. reflexivity.
  - repeat constructor; eexists; (split; [reflexivity|vm_compute; reflexivity]).
Defined.

(** ** The two variants, again *)

(** X15. The two steps of [s.str.strip().str.lower()] can be taken in
    either order: lowercasing first and stripping second gives the same
    Series, and raises on the same ones. *)
Theorem strip_and_lower_commute s :
  pd.str_strip s ≫= pd.str_lower = pd.str_lower s ≫= pd.str_strip.
Proof.
  unfold pd.str_strip, pd.str_lower, pd.str_map.
  destruct (sdtype s); [|done]. cbn [mbind result_bind sdtype values].
  do 2 f_equal. rewrite !map_map. apply map_ext.
  intros [x|]; [|done]. simpl. by rewrite StrFacts.lower_strip.
Qed.

(** X16. The variant of the tests leaves a cleaned table as it is: applied
    to what it returned, or to what the variant of [src/transform.py]
    returned, it returns the same table, also when a guard left a [float64]
    column in it. *)
Theorem guarded_variant_idempotent df out :
  Transform.clean_dataframe df = Ok out \/ TestTransform.clean_dataframe df = Ok out ->
  TestTransform.clean_dataframe out = Ok out.
Proof.
  intros [H|H].
  - apply TestTransform_extends_Transform in H. by apply (TestTransform_idempotent df).
  - by apply (TestTransform_idempotent df).
Qed.

Lemma guarded_variant_idempotent_witness :
  TestTransform.clean_dataframe
    (mkDataFrame float64 object
       [mkRow 0 None (Some "a@x.com") []; mkRow 1 None (Some "b@x.com") []])
  = Ok (mkDataFrame float64 object
          [mkRow 0 None (Some "a@x.com") []; mkRow 1 None (Some "b@x.com") []]).
Proof.
  apply (guarded_variant_idempotent blank_names_table).
  right. vm_compute. reflexivity.
Defined.
